(** * The pseudo character device driver of [pcd.c]

    A shallow embedding of the file operations of the driver
    ([pcd_lseek], [pcd_read], [pcd_write], [pcd_open], [pcd_release]) and of
    the 512-byte [device_buffer] they share, followed by the properties of
    the storage region and of its sessions.

    The integer types are those of a 64-bit kernel (LP64): [loff_t] and
    [ssize_t] are signed 64-bit, [size_t] is unsigned 64-bit.  A value of
    such a type is a [Z] in the range of the type; every conversion and
    every wrap-around of the C code is written out. *)

From Stdlib Require Import ZArith Lia List Strings.Byte String.
From stdpp Require Import base numbers option list gmap.
Import ListNotations.

Local Open Scope Z_scope.

(** ** Machine integers *)

Definition two64 : Z := Eval cbv in 2 ^ 64.
Definition two63 : Z := Eval cbv in 2 ^ 63.

Definition SIZE_MAX : Z := two64 - 1.
Definition LLONG_MAX : Z := two63 - 1.
Definition LLONG_MIN : Z := - two63.

(** Conversion to [size_t] (and to any unsigned 64-bit type): reduction
    modulo 2^64. *)
Definition to_size_t (z : Z) : Z := z mod two64.

(** Conversion to [loff_t] and to [ssize_t]: the two's-complement value.
    The kernel is built with wrapping signed arithmetic, so the same
    function gives the result of a signed addition. *)
Definition to_loff_t (z : Z) : Z := (z + two63) mod two64 - two63.
Definition to_ssize_t (z : Z) : Z := to_loff_t z.

Definition is_size_t (z : Z) : Prop := 0 <= z <= SIZE_MAX.
Definition is_loff_t (z : Z) : Prop := LLONG_MIN <= z <= LLONG_MAX.

(** ** Constants *)

(** [#define DEV_MEM_SIZE 512] *)
Definition DEV_MEM_SIZE : Z := 512.

(** Error numbers of <linux/errno.h> and seek modes of <linux/fs.h>. *)
Definition EBADF : Z := 9.
Definition EFAULT : Z := 14.
Definition EINVAL : Z := 22.
Definition ENOSPC : Z := 28.

Definition SEEK_SET : Z := 0.
Definition SEEK_CUR : Z := 1.
Definition SEEK_END : Z := 2.

(** ** Memory *)

(** [struct file], of which the driver uses [f_pos] only.  The array
    [char device_buffer[DEV_MEM_SIZE]] is a list of bytes. *)
Record file := File { f_pos : Z }.

(** A [__user] pointer is modelled by the window of caller memory that the
    kernel can reach through it: a list of bytes.  A copy of [n] bytes
    succeeds when the window has [n] bytes and stops short otherwise. *)
Definition user_window := list byte.

(** A range [&device_buffer[start]], [len] bytes long, handed to a copy
    primitive. *)
Record span := Span { sp_start : Z; sp_len : Z }.

(** The range lies inside the array, indices [0 .. DEV_MEM_SIZE - 1]. *)
Definition in_buffer (s : span) : Prop :=
  0 <= sp_start s /\ 0 <= sp_len s /\ sp_start s + sp_len s <= DEV_MEM_SIZE.

Definition in_buffer_opt (o : option span) : Prop :=
  match o with Some s => in_buffer s | None => True end.

(** Bytes [start .. start + k - 1] of the array.  Outside the array C gives
    no meaning to the access; the model reads nothing there, and the [span]
    recorded by the caller tells that it happened. *)
Definition kread (dev : list byte) (start k : Z) : list byte :=
  take (Z.to_nat k) (drop (Z.to_nat start) dev).

(** The array after cells [start .. start + n - 1] received [cell 0 ..
    cell (n-1)]; cells outside the array are dropped, the array keeps its
    length. *)
Definition kwrite (dev : list byte) (start n : Z) (cell : Z -> byte) : list byte :=
  imap (fun i old =>
          let j := Z.of_nat i - start in
          if (0 <=? j) && (j <? n) then cell j else old) dev.

(** [copy_to_user(to, from, n)] of <linux/uaccess.h>, by its contract:
    stores as many of the [n] bytes as the caller's window takes and returns
    the number of bytes that could not be copied, zero on success. *)
Definition copy_to_user (to : user_window) (dev : list byte) (start n : Z)
  : user_window * Z :=
  let k := Z.min n (Z.of_nat (length to)) in
  let data := kread dev start k in
  (data ++ drop (length data) to, n - k).

(** [copy_from_user(to, from, n)], by its contract: copies as many of the
    [n] bytes as the caller's window holds, pads the destination with zero
    bytes up to [n], and returns the number of bytes that could not be
    copied, zero on success. *)
Definition copy_from_user (dev : list byte) (start : Z) (from : user_window) (n : Z)
  : list byte * Z :=
  let k := Z.min n (Z.of_nat (length from)) in
  (kwrite dev start n (fun j => nth (Z.to_nat j) from "000"%byte), n - k).

(** ** The file operations *)

(** [loff_t pcd_lseek(struct file *filp, loff_t off, int whence)]:
    the returned value and the file after the call. *)
Definition pcd_lseek (filp : file) (off whence : Z) : Z * file :=
  let check (temp_f_pos : Z) :=
    if (temp_f_pos <? 0) || (temp_f_pos >? DEV_MEM_SIZE)
    then (- EINVAL, filp)
    else (temp_f_pos, File temp_f_pos) in
  if whence =? SEEK_SET then check off
  else if whence =? SEEK_CUR then check (to_loff_t (f_pos filp + off))
  else if whence =? SEEK_END then check (to_loff_t (DEV_MEM_SIZE + off))
  else (- EINVAL, filp).

(** What a read or a write leaves behind: the returned [ssize_t], the value
    of [*f_pos], the device buffer, the caller's window, and the range of
    the device buffer that was handed to the copy primitive, if the call got
    that far. *)
Record rw_result := RwResult {
  rw_ret : Z;
  rw_pos : Z;
  rw_dev : list byte;
  rw_user : user_window;
  rw_span : option span
}.

(** The count after the first [if] of [pcd_read] and of [pcd_write]:
    [*f_pos + count] is computed and compared in unsigned 64-bit
    arithmetic, and [DEV_MEM_SIZE - *f_pos] is converted to [size_t]. *)
Definition clamp_count (f_pos count : Z) : Z :=
  if to_size_t (f_pos + count) >? DEV_MEM_SIZE
  then to_size_t (DEV_MEM_SIZE - f_pos)
  else count.

(** [ssize_t pcd_read(struct file *filp, char __user *buff, size_t count,
    loff_t *f_pos)]; [filp] is not used by the function.  [count] is a
    [size_t], so the test [count <= 0] holds for 0 only. *)
Definition pcd_read (dev : list byte) (buff : user_window) (count f_pos : Z)
  : rw_result :=
  let count := clamp_count f_pos count in
  if count <=? 0 then RwResult 0 f_pos dev buff None
  else
    let '(buff', uncopied) := copy_to_user buff dev f_pos count in
    if negb (uncopied =? 0)
    then RwResult (- EFAULT) f_pos dev buff' (Some (Span f_pos count))
    else RwResult (to_ssize_t count) (to_loff_t (f_pos + count)) dev buff'
                  (Some (Span f_pos count)).

(** [ssize_t pcd_write(struct file *filp, const char __user *buff,
    size_t count, loff_t *f_pos)]. *)
Definition pcd_write (dev : list byte) (buff : user_window) (count f_pos : Z)
  : rw_result :=
  let count := clamp_count f_pos count in
  if count <=? 0 then RwResult (- ENOSPC) f_pos dev buff None
  else
    let '(dev', uncopied) := copy_from_user dev f_pos buff count in
    if negb (uncopied =? 0)
    then RwResult (- EFAULT) f_pos dev' buff (Some (Span f_pos count))
    else RwResult (to_ssize_t count) (to_loff_t (f_pos + count)) dev' buff
                  (Some (Span f_pos count)).

(** [int pcd_open(struct inode *inode, struct file *filp)] and
    [int pcd_release(struct inode *inode, struct file *filp)]: both log a
    line and return 0; the buffer and the file are passed through. *)
Definition pcd_open (dev : list byte) (filp : file) : Z * list byte * file :=
  (0, dev, filp).

Definition pcd_release (dev : list byte) (filp : file) : Z * list byte * file :=
  (0, dev, filp).

(** ** Sessions

    The caller side of [pcd_fops]: a table of open files, each with its own
    [f_pos], all sharing the one [device_buffer].  A request names its file
    by descriptor; the table hands the file operation [filp] and
    [&filp->f_pos] and stores what the operation leaves there.  A new file
    starts at position 0 and a closed one leaves the table. *)

Record system := System {
  device_buffer : list byte;
  files : gmap nat file
}.

Inductive request :=
| Open
| Read (fd : nat) (buff : user_window) (count : Z)
| Write (fd : nat) (buff : user_window) (count : Z)
| Lseek (fd : nat) (off whence : Z)
| Close (fd : nat).

Record reply := Reply {
  r_ret : Z;
  r_user : user_window;
  r_span : option span
}.

Definition bad_descriptor (s : system) : reply * system :=
  (Reply (- EBADF) [] None, s).

Definition dispatch (req : request) (s : system) : reply * system :=
  match req with
  | Open =>
      let fd := fresh (dom (files s)) in
      let '(ret, dev, filp) := pcd_open (device_buffer s) (File 0) in
      if ret =? 0
      then (Reply (Z.of_nat fd) [] None, System dev (<[fd := filp]> (files s)))
      else (Reply ret [] None, System dev (files s))
  | Read fd buff count =>
      match files s !! fd with
      | None => bad_descriptor s
      | Some filp =>
          let r := pcd_read (device_buffer s) buff count (f_pos filp) in
          (Reply (rw_ret r) (rw_user r) (rw_span r),
           System (rw_dev r) (<[fd := File (rw_pos r)]> (files s)))
      end
  | Write fd buff count =>
      match files s !! fd with
      | None => bad_descriptor s
      | Some filp =>
          let r := pcd_write (device_buffer s) buff count (f_pos filp) in
          (Reply (rw_ret r) (rw_user r) (rw_span r),
           System (rw_dev r) (<[fd := File (rw_pos r)]> (files s)))
      end
  | Lseek fd off whence =>
      match files s !! fd with
      | None => bad_descriptor s
      | Some filp =>
          let '(ret, filp') := pcd_lseek filp off whence in
          (Reply ret [] None, System (device_buffer s) (<[fd := filp']> (files s)))
      end
  | Close fd =>
      match files s !! fd with
      | None => bad_descriptor s
      | Some filp =>
          let '(ret, dev, _) := pcd_release (device_buffer s) filp in
          (Reply ret [] None, System dev (delete fd (files s)))
      end
  end.

(** [pcd_release] called on the file of descriptor [fd], the file staying in
    the table: what the driver itself does to the system on a close. *)
Definition release_file (fd : nat) (s : system) : option (Z * system) :=
  match files s !! fd with
  | None => None
  | Some filp =>
      let '(ret, dev, filp') := pcd_release (device_buffer s) filp in
      Some (ret, System dev (<[fd := filp']> (files s)))
  end.

(** [n] such calls in a row, with the values they returned. *)
Fixpoint release_times (n : nat) (fd : nat) (s : system) : option (list Z * system) :=
  match n with
  | O => Some ([], s)
  | S n' =>
      match release_file fd s with
      | None => None
      | Some (ret, s') =>
          match release_times n' fd s' with
          | None => None
          | Some (rets, s'') => Some (ret :: rets, s'')
          end
      end
  end.

Definition is_write (req : request) : bool :=
  match req with Write _ _ _ => true | _ => false end.

(** ** The vocabulary of the properties *)

(** Every open file has its position inside [0, DEV_MEM_SIZE]. *)
Definition positions_ok (s : system) : Prop :=
  forall fd filp, files s !! fd = Some filp -> 0 <= f_pos filp <= DEV_MEM_SIZE.

(** A count that cannot make [*f_pos + count] wrap around for a position of
    at most [DEV_MEM_SIZE]: every [size_t] but the 512 largest.  The counts
    that reach a file operation are of this kind: the virtual file system
    limits the count of a read or a write to [MAX_RW_COUNT], which is below
    [SSIZE_MAX]. *)
Definition count_ok (count : Z) : Prop := 0 <= count <= SIZE_MAX - DEV_MEM_SIZE.

Definition request_ok (req : request) : Prop :=
  match req with
  | Read _ _ count | Write _ _ count => count_ok count
  | _ => True
  end.

(** The copy primitive of the call reports bytes that it could not copy. *)
Definition read_faults (dev : list byte) (buff : user_window) (count f_pos : Z) : Prop :=
  snd (copy_to_user buff dev f_pos (clamp_count f_pos count)) <> 0.

Definition write_faults (dev : list byte) (buff : user_window) (count f_pos : Z) : Prop :=
  snd (copy_from_user dev f_pos buff (clamp_count f_pos count)) <> 0.

(** The read of the specification, said of a result [r] of [pcd_read] at
    position [p] with count [c]: [min(c, capacity - p)] is returned, that
    many bytes of the region from index [p] on have reached the caller, and
    the position has moved past them. *)
Definition short_read (dev : list byte) (p c : Z) (r : rw_result) : Prop :=
  let n := Z.min c (DEV_MEM_SIZE - p) in
  rw_ret r = n /\ rw_pos r = p + n /\
  take (Z.to_nat n) (rw_user r) = kread dev p n /\
  Z.of_nat (length (kread dev p n)) = n.

(** The candidate position of a seek in the words of the specification:
    [offset] for ABSOLUTE, [p + offset] for RELATIVE, [capacity + offset]
    for FROM_END, none for another mode; computed in the integers. *)
Definition candidate (p off whence : Z) : option Z :=
  if whence =? SEEK_SET then Some off
  else if whence =? SEEK_CUR then Some (p + off)
  else if whence =? SEEK_END then Some (DEV_MEM_SIZE + off)
  else None.

(** ** Sample data *)

Definition zeros (n : nat) : list byte := replicate n "000"%byte.
Definition fresh_buffer : list byte := zeros 512.
Definition bytes_of (s : string) : list byte := list_byte_of_string s.
Definition boot : system := System fresh_buffer ∅.
Definition two_files : system :=
  System fresh_buffer {[ 0%nat := File 0; 1%nat := File 7 ]}.
Definition one_file : system := System fresh_buffer {[ 3%nat := File 510 ]}.

(** ** Loading and unloading the module

    [pcd_driver_init] and [pcd_driver_cleanup] talk to the kernel's device
    registry.  The kernel's side is given by the answers of the four calls
    that can fail; the driver's side is the module's globals and the list
    of the calls it made, in order. *)

(** [int]: signed 32-bit. *)
Definition to_int (z : Z) : Z := (z + 2 ^ 31) mod 2 ^ 32 - 2 ^ 31.
Definition is_int (z : Z) : Prop := - 2 ^ 31 <= z < 2 ^ 31.

(** Error pointers of <linux/err.h>: a pointer is a 64-bit address, the
    last [MAX_ERRNO] addresses encode error numbers. *)
Definition MAX_ERRNO : Z := 4095.
Definition IS_ERR (ptr : Z) : bool := two64 - MAX_ERRNO <=? ptr.
Definition PTR_ERR (ptr : Z) : Z := to_loff_t ptr.

(** [dev_t device_number], [struct class *class_pcd] and
    [struct device *device_pcd]; zero before the module is loaded. *)
Record pcd_globals := PcdGlobals {
  device_number : Z;
  class_pcd : Z;
  device_pcd : Z
}.

Definition unloaded : pcd_globals := PcdGlobals 0 0 0.

(** What the kernel answers: the value returned by [alloc_chrdev_region]
    and the number it grants, the value returned by [cdev_add], and the
    pointers returned by [class_create] and [device_create]. *)
Record kernel_answers := KernelAnswers {
  alloc_ret : Z;
  alloc_dev : Z;
  add_ret : Z;
  class_ptr : Z;
  device_ptr : Z
}.

(** A call to the registry, with its arguments and, where it has one, its
    result. *)
Inductive kcall :=
| AllocChrdevRegion (baseminor count : Z) (name : string) (ret dev : Z)
| CdevInit
| CdevAdd (dev count ret : Z)
| UnregisterChrdevRegion (dev count : Z)
| ClassCreate (name : string) (cls : Z)
| CdevDel
| DeviceCreate (cls parent dev drvdata : Z) (name : string) (device : Z)
| ClassDestroy (cls : Z)
| DeviceDestroy (cls dev : Z).

(** Code that reads and writes the globals and calls the registry. *)
Definition K (A : Type) : Type :=
  pcd_globals * list kcall -> A * (pcd_globals * list kcall).

Definition kret {A} (a : A) : K A := fun st => (a, st).

Definition kbind {A B} (c : K A) (f : A -> K B) : K B :=
  fun st => let '(a, st') := c st in f a st'.

Declare Scope kernel_scope.
Delimit Scope kernel_scope with kernel.
Notation "x <- c ;; k" := (kbind c (fun x => k))
  (at level 100, c at next level, right associativity) : kernel_scope.
Notation "c ;;; k" := (kbind c (fun _ => k))
  (at level 100, right associativity) : kernel_scope.

Definition global {A} (field : pcd_globals -> A) : K A :=
  fun st => (field (fst st), st).

Definition kcalled (e : kcall) : K unit :=
  fun st => (tt, (fst st, snd st ++ [e])).

(** [alloc_chrdev_region(&device_number, baseminor, count, name)] stores
    the number it grants when it succeeds. *)
Definition alloc_chrdev_region (k : kernel_answers) (baseminor count : Z)
    (name : string) : K Z :=
  fun st =>
    let g := fst st in
    let g' := if alloc_ret k <? 0 then g
              else PcdGlobals (alloc_dev k) (class_pcd g) (device_pcd g) in
    (alloc_ret k,
     (g', snd st ++ [AllocChrdevRegion baseminor count name (alloc_ret k) (alloc_dev k)])).

Definition cdev_init : K unit := kcalled CdevInit.

Definition cdev_add (k : kernel_answers) (dev count : Z) : K Z :=
  fun st => (add_ret k, (fst st, snd st ++ [CdevAdd dev count (add_ret k)])).

Definition unregister_chrdev_region (dev count : Z) : K unit :=
  kcalled (UnregisterChrdevRegion dev count).

Definition cdev_del : K unit := kcalled CdevDel.

Definition class_create (k : kernel_answers) (name : string) : K Z :=
  fun st => (class_ptr k, (fst st, snd st ++ [ClassCreate name (class_ptr k)])).

Definition device_create (k : kernel_answers) (cls parent dev drvdata : Z)
    (name : string) : K Z :=
  fun st =>
    (device_ptr k,
     (fst st, snd st ++ [DeviceCreate cls parent dev drvdata name (device_ptr k)])).

Definition class_destroy (cls : Z) : K unit := kcalled (ClassDestroy cls).
Definition device_destroy (cls dev : Z) : K unit := kcalled (DeviceDestroy cls dev).

Definition set_class_pcd (cls : Z) : K unit :=
  fun st => (tt, (PcdGlobals (device_number (fst st)) cls (device_pcd (fst st)), snd st)).

Definition set_device_pcd (device : Z) : K unit :=
  fun st => (tt, (PcdGlobals (device_number (fst st)) (class_pcd (fst st)) device, snd st)).

(** [static int __init pcd_driver_init(void)] *)
Definition pcd_driver_init (k : kernel_answers) : K Z :=
  (ret <- alloc_chrdev_region k 0 1 "pcd_devices" ;;
   if ret <? 0 then kret ret
   else
     cdev_init ;;;
     dev <- global device_number ;;
     ret <- cdev_add k dev 1 ;;
     if ret <? 0 then
       unregister_chrdev_region dev 1 ;;;
       kret ret
     else
       cls <- class_create k "pcd_class" ;;
       set_class_pcd cls ;;;
       if IS_ERR cls then
         cdev_del ;;;
         unregister_chrdev_region dev 1 ;;;
         kret (to_int (PTR_ERR cls))
       else
         device <- device_create k cls 0 dev 0 "pcd" ;;
         set_device_pcd device ;;;
         if IS_ERR device then
           class_destroy cls ;;;
           cdev_del ;;;
           unregister_chrdev_region dev 1 ;;;
           kret (to_int (PTR_ERR device))
         else kret 0)%kernel.

(** [static void __exit pcd_driver_cleanup(void)] *)
Definition pcd_driver_cleanup : K unit :=
  (device <- global device_pcd ;;
   cls <- global class_pcd ;;
   dev <- global device_number ;;
   (if negb (device =? 0) then device_destroy cls dev else kret tt) ;;;
   (if negb (cls =? 0) then class_destroy cls else kret tt) ;;;
   cdev_del ;;;
   unregister_chrdev_region dev 1)%kernel.

(** What the registry holds after a list of calls, most recent first: a
    call that succeeds adds what it registers, a call that releases takes
    the most recent registration away and must name it.  [None] when a
    release names something else than the most recent registration. *)
Inductive registration :=
| HeldRegion (dev count : Z)
| HeldCdev (dev count : Z)
| HeldClass (cls : Z)
| HeldDevice (cls dev device : Z).

Fixpoint registry (calls : list kcall) (held : list registration)
  : option (list registration) :=
  match calls with
  | [] => Some held
  | e :: calls' =>
      match e, held with
      | AllocChrdevRegion _ count _ ret dev, _ =>
          registry calls' (if ret <? 0 then held else HeldRegion dev count :: held)
      | CdevInit, _ => registry calls' held
      | CdevAdd dev count ret, _ =>
          registry calls' (if ret <? 0 then held else HeldCdev dev count :: held)
      | ClassCreate _ cls, _ =>
          registry calls' (if IS_ERR cls then held else HeldClass cls :: held)
      | DeviceCreate cls _ dev _ _ device, _ =>
          registry calls'
            (if IS_ERR device then held else HeldDevice cls dev device :: held)
      | UnregisterChrdevRegion dev count, HeldRegion dev' count' :: held' =>
          if (dev =? dev') && (count =? count') then registry calls' held' else None
      | CdevDel, HeldCdev _ _ :: held' => registry calls' held'
      | ClassDestroy cls, HeldClass cls' :: held' =>
          if cls =? cls' then registry calls' held' else None
      | DeviceDestroy cls dev, HeldDevice cls' dev' _ :: held' =>
          if (cls =? cls') && (dev =? dev') then registry calls' held' else None
      | _, _ => None
      end
  end.

(** Each of the four steps of the initialisation succeeds. *)
Definition steps_ok (k : kernel_answers) : Prop :=
  0 <= alloc_ret k /\ 0 <= add_ret k /\
  IS_ERR (class_ptr k) = false /\ IS_ERR (device_ptr k) = false.

(** The error of the first step that fails, if one does: the value
    returned by the call, or the error number that the pointer encodes. *)
Definition first_error (k : kernel_answers) : option Z :=
  if alloc_ret k <? 0 then Some (alloc_ret k)
  else if add_ret k <? 0 then Some (add_ret k)
  else if IS_ERR (class_ptr k) then Some (class_ptr k - two64)
  else if IS_ERR (device_ptr k) then Some (device_ptr k - two64)
  else None.

Definition answers_typed (k : kernel_answers) : Prop :=
  is_int (alloc_ret k) /\ is_int (add_ret k) /\
  is_size_t (class_ptr k) /\ is_size_t (device_ptr k).

Definition all_granted : kernel_answers :=
  KernelAnswers 0 251658240 0 18446612682070000000 18446612682071000000.
Definition class_refused : kernel_answers :=
  KernelAnswers 0 251658240 0 (two64 - 12) 0.

(** * Properties *)

(** ** The scenario of the specification *)

Example write_hello :
  rw_ret (pcd_write fresh_buffer (bytes_of "HelloWorld") 10 0) = 10 /\
  rw_pos (pcd_write fresh_buffer (bytes_of "HelloWorld") 10 0) = 10 /\
  kread (rw_dev (pcd_write fresh_buffer (bytes_of "HelloWorld") 10 0)) 0 10
    = bytes_of "HelloWorld".
Proof. vm_compute. auto. Qed.

Example seek_start : pcd_lseek (File 10) 0 SEEK_SET = (0, File 0).
Proof. reflexivity. Qed.

Example read_hello :
  let w := pcd_write fresh_buffer (bytes_of "HelloWorld") 10 0 in
  let r := pcd_read (rw_dev w) (zeros 5) 5 0 in
  rw_ret r = 5 /\ rw_pos r = 5 /\ rw_user r = bytes_of "Hello".
Proof. vm_compute. auto. Qed.

Example write_truncated :
  let r := pcd_write fresh_buffer (bytes_of "abcde") 5 510 in
  rw_ret r = 2 /\ rw_pos r = 512 /\ rw_span r = Some (Span 510 2)
  /\ kread (rw_dev r) 510 2 = bytes_of "ab".
Proof. vm_compute. auto. Qed.

Example write_at_end :
  rw_ret (pcd_write fresh_buffer (bytes_of "abcde") 5 512) = - ENOSPC.
Proof. reflexivity. Qed.

Example two_sessions :
  let '(o1, s1) := dispatch Open boot in
  let '(o2, s2) := dispatch Open s1 in
  let '(w, s3) := dispatch (Write 0 (bytes_of "HelloWorld") 10) s2 in
  let '(r, s4) := dispatch (Read 1 (zeros 5) 5) s3 in
  r_ret o1 = 0 /\ r_ret o2 = 1 /\ r_ret w = 10 /\ r_ret r = 5
  /\ r_user r = bytes_of "Hello"
  /\ files s4 !! 0%nat = Some (File 10) /\ files s4 !! 1%nat = Some (File 5).
Proof. vm_compute. auto 10. Qed.

(** ** Integer conversions *)

Ltac zbool :=
  repeat match goal with
    | |- context [Z.gtb ?a ?b] => rewrite (Z.gtb_ltb a b)
    | |- context [Z.ltb ?a ?b] => destruct (Z.ltb_spec a b)
    | |- context [Z.leb ?a ?b] => destruct (Z.leb_spec a b)
    | |- context [Z.eqb ?a ?b] => destruct (Z.eqb_spec a b)
    end; simpl.

Ltac zlia :=
  unfold is_size_t, is_loff_t, count_ok, SIZE_MAX, LLONG_MAX, LLONG_MIN,
    DEV_MEM_SIZE, EFAULT, EINVAL, ENOSPC, two63, two64 in *; lia.

Lemma to_size_t_small z : 0 <= z <= SIZE_MAX -> to_size_t z = z.
Proof. intros H. unfold to_size_t. apply Z.mod_small. zlia. Qed.

Lemma to_loff_t_small z : LLONG_MIN <= z <= LLONG_MAX -> to_loff_t z = z.
Proof. intros H. unfold to_loff_t. rewrite Z.mod_small; zlia. Qed.

Lemma to_size_t_range z : 0 <= to_size_t z <= SIZE_MAX.
Proof.
  unfold to_size_t. assert (H : 0 < two64) by reflexivity.
  pose proof (Z.mod_pos_bound z two64 H). zlia.
Qed.

(** Two integers that agree modulo 2^64 have the same [loff_t] value. *)
Lemma to_loff_t_of_size_t z : to_loff_t (to_size_t z) = to_loff_t z.
Proof. unfold to_loff_t, to_size_t. rewrite Zplus_mod_idemp_l. reflexivity. Qed.

(** A [size_t] either fits [ssize_t] or becomes negative there. *)
Lemma to_loff_t_cases z :
  0 <= z <= SIZE_MAX ->
  (z <= LLONG_MAX /\ to_loff_t z = z) \/ (LLONG_MAX < z /\ to_loff_t z = z - two64).
Proof.
  intros Hz. destruct (Z_lt_le_dec z two63) as [Hlow|Hhigh].
  - left. rewrite to_loff_t_small; zlia.
  - right. split; [zlia|]. unfold to_loff_t.
    replace (z + two63) with ((z - two63) + 1 * two64) by zlia.
    rewrite Z_mod_plus_full. rewrite Z.mod_small; zlia.
Qed.

(** A sum that leaves the range of [loff_t] lands outside the region as
    long as it is above [-2^64 + DEV_MEM_SIZE]: above the range it wraps to
    a negative value, below it to one beyond the region. *)
Lemma to_loff_t_outside z :
  - two64 + DEV_MEM_SIZE < z <= two64 - 2 ->
  z < 0 \/ z > DEV_MEM_SIZE ->
  to_loff_t z < 0 \/ to_loff_t z > DEV_MEM_SIZE.
Proof.
  intros Hr Hout. unfold to_loff_t.
  destruct (Z_lt_le_dec z (- two63)) as [Hlow|Hlow].
  - replace (z + two63) with ((z + two63 + two64) + (-1) * two64) by lia.
    rewrite Z_mod_plus_full. rewrite Z.mod_small; zlia.
  - destruct (Z_lt_le_dec z two63) as [Hmid|Hhigh].
    + rewrite Z.mod_small; zlia.
    + replace (z + two63) with ((z - two63) + 1 * two64) by zlia.
      rewrite Z_mod_plus_full. rewrite Z.mod_small; zlia.
Qed.

(** ** The count *)

Lemma clamp_count_size_t p c : is_size_t c -> is_size_t (clamp_count p c).
Proof.
  intros Hc. unfold clamp_count. zbool; [apply to_size_t_range | exact Hc].
Qed.

Section InRegion.

Variables p c : Z.
Hypothesis Hp : 0 <= p <= DEV_MEM_SIZE.

(** Inside the region and without wrap-around the count becomes
    [min(count, DEV_MEM_SIZE - f_pos)]. *)
Lemma clamp_count_min :
  0 <= c -> p + c <= SIZE_MAX ->
  clamp_count p c = Z.min c (DEV_MEM_SIZE - p).
Proof.
  intros Hc Hs. unfold clamp_count.
  rewrite !to_size_t_small by zlia. zbool; lia.
Qed.

(** From a position in the region the count leads to a position in the
    region, whatever was asked. *)
Lemma clamp_count_lands :
  0 <= to_loff_t (p + clamp_count p c) <= DEV_MEM_SIZE.
Proof.
  unfold clamp_count. zbool.
  - rewrite to_size_t_small by zlia. rewrite to_loff_t_small by zlia. lia.
  - rewrite <- to_loff_t_of_size_t.
    pose proof (to_size_t_range (p + c)).
    rewrite to_loff_t_small by zlia. lia.
Qed.

(** With a count of [count_ok] the range that is copied lies in the
    array. *)
Lemma clamp_count_span :
  count_ok c -> 0 < clamp_count p c -> in_buffer (Span p (clamp_count p c)).
Proof.
  intros Hc. rewrite clamp_count_min by zlia.
  unfold in_buffer. simpl. lia.
Qed.

End InRegion.

(** The sum [*f_pos + count] wraps around for the largest counts: at
    position 1 a count of [SIZE_MAX] is not reduced. *)
Example count_wraps : clamp_count 1 SIZE_MAX = SIZE_MAX.
Proof. reflexivity. Qed.

(** Beyond the region the count is never brought to 0: the difference
    [DEV_MEM_SIZE - *f_pos] is negative and becomes a large [size_t], which
    the test [count <= 0] lets through. *)
Lemma clamp_count_beyond p c :
  DEV_MEM_SIZE < p <= LLONG_MAX -> is_size_t c -> 0 < clamp_count p c <= SIZE_MAX.
Proof.
  intros Hp Hc. unfold clamp_count.
  assert (Hneg : to_size_t (DEV_MEM_SIZE - p) = two64 + DEV_MEM_SIZE - p).
  { unfold to_size_t.
    replace (DEV_MEM_SIZE - p)
      with ((two64 + DEV_MEM_SIZE - p) + (-1) * two64) by lia.
    rewrite Z_mod_plus_full. apply Z.mod_small. zlia. }
  rewrite Hneg. destruct (Z.gtb_spec (to_size_t (p + c)) DEV_MEM_SIZE) as [|Hle];
    [zlia|].
  destruct (Z_lt_le_dec (p + c) two64) as [Hfit|Hwrap].
  - rewrite to_size_t_small in Hle by zlia. zlia.
  - zlia.
Qed.

(** ** Array access *)

Lemma length_kread dev start k :
  0 <= start -> 0 <= k -> start + k <= Z.of_nat (length dev) ->
  Z.of_nat (length (kread dev start k)) = k.
Proof.
  intros Hs Hk Hb. unfold kread. rewrite length_take, length_drop. lia.
Qed.

Lemma length_kwrite dev start n cell : length (kwrite dev start n cell) = length dev.
Proof. unfold kwrite. apply length_imap. Qed.

Lemma lookup_kwrite dev start n cell (i : nat) :
  kwrite dev start n cell !! i =
  (fun old => let j := Z.of_nat i - start in
              if (0 <=? j) && (j <? n) then cell j else old) <$> dev !! i.
Proof. unfold kwrite. apply list_lookup_imap. Qed.

(** Cells outside [start .. start + n - 1] keep their byte. *)
Lemma lookup_kwrite_outside dev start n cell (i : nat) :
  ~ (start <= Z.of_nat i < start + n) ->
  kwrite dev start n cell !! i = dev !! i.
Proof.
  intros Hout. rewrite lookup_kwrite.
  destruct (dev !! i) as [b|]; simpl; [|reflexivity].
  zbool; try reflexivity. lia.
Qed.

(** Cells inside receive their byte. *)
Lemma lookup_kwrite_inside dev start n cell (i : nat) :
  start <= Z.of_nat i < start + n -> (i < length dev)%nat ->
  kwrite dev start n cell !! i = Some (cell (Z.of_nat i - start)).
Proof.
  intros Hin Hlen. rewrite lookup_kwrite.
  destruct (lookup_lt_is_Some_2 dev i Hlen) as [b ->]. simpl.
  zbool; try reflexivity; lia.
Qed.

(** Reading back what was just stored. *)
Lemma kread_kwrite dev start (data : list byte) :
  0 <= start -> start + Z.of_nat (length data) <= Z.of_nat (length dev) ->
  kread (kwrite dev start (Z.of_nat (length data))
           (fun j => nth (Z.to_nat j) data "000"%byte))
        start (Z.of_nat (length data)) = data.
Proof.
  intros Hs Hb. unfold kread. apply list_eq. intros i.
  rewrite Nat2Z.id.
  destruct (decide (i < length data)%nat) as [Hi|Hi].
  - rewrite lookup_take_lt by exact Hi. rewrite lookup_drop.
    rewrite lookup_kwrite_inside by lia.
    destruct (lookup_lt_is_Some_2 data i Hi) as [b Hb'].
    rewrite Hb'. f_equal.
    replace (Z.to_nat (Z.of_nat (Z.to_nat start + i) - start)) with i by lia.
    apply nth_lookup_Some with (d := "000"%byte) in Hb'. exact Hb'.
  - rewrite lookup_take_ge by lia. symmetry. apply lookup_ge_None_2. lia.
Qed.

(** ** The two transfers in closed form *)

Lemma pcd_read_eq dev buff c p :
  0 <= p <= DEV_MEM_SIZE -> 0 <= c -> p + c <= SIZE_MAX ->
  Z.min c (DEV_MEM_SIZE - p) <= Z.of_nat (length buff) ->
  pcd_read dev buff c p =
    let n := Z.min c (DEV_MEM_SIZE - p) in
    if n <=? 0 then RwResult 0 p dev buff None
    else RwResult n (p + n) dev
           (kread dev p n ++ drop (length (kread dev p n)) buff)
           (Some (Span p n)).
Proof.
  intros Hp Hc Hs Hfit. unfold pcd_read. rewrite clamp_count_min by assumption.
  simpl. destruct (Z.leb_spec (Z.min c (DEV_MEM_SIZE - p)) 0) as [Hz|Hpos];
    [reflexivity|].
  unfold copy_to_user. rewrite (Z.min_l _ _ Hfit). rewrite Z.sub_diag. simpl.
  unfold to_ssize_t. rewrite !to_loff_t_small by zlia. reflexivity.
Qed.

Lemma pcd_write_eq dev buff c p :
  0 <= p <= DEV_MEM_SIZE -> 0 <= c -> p + c <= SIZE_MAX ->
  Z.min c (DEV_MEM_SIZE - p) <= Z.of_nat (length buff) ->
  pcd_write dev buff c p =
    let n := Z.min c (DEV_MEM_SIZE - p) in
    if n <=? 0 then RwResult (- ENOSPC) p dev buff None
    else RwResult n (p + n)
           (kwrite dev p n (fun j => nth (Z.to_nat j) buff "000"%byte))
           buff (Some (Span p n)).
Proof.
  intros Hp Hc Hs Hfit. unfold pcd_write. rewrite clamp_count_min by assumption.
  simpl. destruct (Z.leb_spec (Z.min c (DEV_MEM_SIZE - p)) 0) as [Hz|Hpos];
    [reflexivity|].
  unfold copy_from_user. rewrite (Z.min_l _ _ Hfit). rewrite Z.sub_diag. simpl.
  unfold to_ssize_t. rewrite !to_loff_t_small by zlia. reflexivity.
Qed.

(** A copy that reports nothing left has found room for every byte. *)
Lemma read_fits dev buff c p :
  ~ read_faults dev buff c p ->
  clamp_count p c <= Z.max 0 (Z.of_nat (length buff)).
Proof. unfold read_faults, copy_to_user. simpl. lia. Qed.

(** ** Reading *)

(** C1, as the code has it: for a position [p] in [0, 512] and a count [c]
    whose sum with [p] does not wrap around, [pcd_read] returns
    [min(c, 512 - p)], delivers that many bytes of the buffer from index [p]
    on and advances the position by that amount, provided the copy to the
    caller does not fault.  A count of 0 and a read at the end of the region
    return 0, a success. *)
Theorem pcd_read_short dev buff c p :
  length dev = 512%nat ->
  0 <= p <= DEV_MEM_SIZE -> 0 <= c -> p + c <= SIZE_MAX ->
  ~ read_faults dev buff c p ->
  short_read dev p c (pcd_read dev buff c p).
Proof.
  intros Hlen Hp Hc Hs Hok. apply read_fits in Hok.
  rewrite clamp_count_min in Hok by assumption.
  rewrite pcd_read_eq by (try assumption; lia).
  unfold short_read. simpl.
  assert (Hk : Z.of_nat (length (kread dev p (Z.min c (DEV_MEM_SIZE - p))))
               = Z.min c (DEV_MEM_SIZE - p)) by (apply length_kread; zlia).
  destruct (Z.leb_spec (Z.min c (DEV_MEM_SIZE - p)) 0) as [Hz|Hpos]; simpl.
  - assert (H0 : Z.min c (DEV_MEM_SIZE - p) = 0) by zlia.
    rewrite H0 in *. repeat split; solve [lia | exact Hk].
  - repeat split; try exact Hk.
    rewrite <- Hk at 1. rewrite Nat2Z.id. apply take_app_length.
Qed.

Lemma pcd_read_short_witness :
  (length fresh_buffer = 512%nat /\ 0 <= 508 <= DEV_MEM_SIZE /\ 0 <= 8 /\
   508 + 8 <= SIZE_MAX /\ ~ read_faults fresh_buffer (zeros 8) 8 508) /\
  short_read fresh_buffer 508 8 (pcd_read fresh_buffer (zeros 8) 8 508).
Proof.
  assert (H : length fresh_buffer = 512%nat /\ 0 <= 508 <= DEV_MEM_SIZE /\ 0 <= 8 /\
              508 + 8 <= SIZE_MAX /\ ~ read_faults fresh_buffer (zeros 8) 8 508).
  { split; [reflexivity|]. split; [zlia|]. split; [lia|]. split; [zlia|].
    unfold read_faults. vm_compute. intros E. apply E. reflexivity. }
  split; [exact H|].
  destruct H as (H1 & H2 & H3 & H4 & H5).
  exact (pcd_read_short fresh_buffer (zeros 8) 8 508 H1 H2 H3 H4 H5).
Defined.

(** C1 as stated fails when the copy to the caller faults: a read of one
    byte at position 0 through a pointer that gives access to no byte
    returns [-EFAULT], not one byte. *)
Lemma pcd_read_may_fault :
  0 <= 0 <= DEV_MEM_SIZE /\ 0 <= 1 /\
  rw_ret (pcd_read fresh_buffer [] 1 0) = - EFAULT /\
  ~ short_read fresh_buffer 0 1 (pcd_read fresh_buffer [] 1 0).
Proof.
  split; [zlia|]. split; [lia|]. split; [reflexivity|].
  intros (Hret & _). vm_compute in Hret. discriminate Hret.
Qed.

(** A read at a position above 512 never returns 0 and always hands a
    range of the buffer to the copy primitive, a range outside the array. *)
Lemma pcd_read_beyond dev buff c p :
  DEV_MEM_SIZE < p <= LLONG_MAX -> is_size_t c ->
  rw_ret (pcd_read dev buff c p) <> 0 /\
  rw_span (pcd_read dev buff c p) = Some (Span p (clamp_count p c)) /\
  ~ in_buffer (Span p (clamp_count p c)).
Proof.
  intros Hp Hc. pose proof (clamp_count_beyond p c Hp Hc) as Hn.
  unfold pcd_read. destruct (Z.leb_spec (clamp_count p c) 0) as [|_]; [lia|].
  unfold copy_to_user.
  split; [|split].
  - destruct (negb _); simpl; [zlia|]. unfold to_ssize_t.
    destruct (to_loff_t_cases (clamp_count p c)) as [[_ ->]|[H ->]]; zlia.
  - destruct (negb _); reflexivity.
  - unfold in_buffer. simpl. lia.
Qed.

(** C6, evaluated where the claim fails: a read of 1 byte at position 513
    is not answered by 0.  The count becomes [SIZE_MAX], [copy_to_user] is
    called on [&device_buffer[513]] with that count, and the call returns
    [-EFAULT]. *)
Theorem pcd_read_past_capacity :
  rw_ret (pcd_read fresh_buffer (zeros 1) 1 513) = - EFAULT /\
  rw_pos (pcd_read fresh_buffer (zeros 1) 1 513) = 513 /\
  rw_span (pcd_read fresh_buffer (zeros 1) 1 513) = Some (Span 513 SIZE_MAX) /\
  ~ in_buffer_opt (rw_span (pcd_read fresh_buffer (zeros 1) 1 513)).
Proof.
  repeat split; try reflexivity.
  vm_compute. intros (_ & _ & H). apply H. reflexivity.
Qed.

(** ** Writing *)

(** C2: for a position [p] in [0, 512] and a source of [c] bytes,
    [pcd_write] returns [min(c, 512 - p)] and advances the position by that
    amount when it is positive, and returns [-ENOSPC] exactly when it is
    not; an empty source gives [-ENOSPC] wherever the position is. *)
Theorem pcd_write_short dev (buff : user_window) c p :
  c = Z.of_nat (length buff) ->
  0 <= p <= DEV_MEM_SIZE -> p + c <= SIZE_MAX ->
  let n := Z.min c (DEV_MEM_SIZE - p) in
  let r := pcd_write dev buff c p in
  (0 < n -> rw_ret r = n /\ rw_pos r = p + n) /\
  (rw_ret r = - ENOSPC <-> n <= 0) /\
  (buff = [] -> rw_ret r = - ENOSPC).
Proof.
  intros Hc Hp Hs n r. subst r.
  rewrite pcd_write_eq by (try assumption; lia). simpl. fold n.
  destruct (Z.leb_spec n 0) as [Hz|Hpos]; simpl.
  - repeat split; intros; try reflexivity; lia.
  - repeat split; intros; try reflexivity; try zlia.
    subst buff. simpl in *. zlia.
Qed.

Lemma pcd_write_short_witness :
  (5 = Z.of_nat (length (bytes_of "abcde")) /\ 0 <= 510 <= DEV_MEM_SIZE /\
   510 + 5 <= SIZE_MAX) /\
  rw_ret (pcd_write fresh_buffer (bytes_of "abcde") 5 510) = 2 /\
  rw_pos (pcd_write fresh_buffer (bytes_of "abcde") 5 510) = 512.
Proof.
  assert (H : 5 = Z.of_nat (length (bytes_of "abcde")) /\ 0 <= 510 <= DEV_MEM_SIZE /\
              510 + 5 <= SIZE_MAX).
  { split; [reflexivity|]. split; zlia. }
  split; [exact H|].
  destruct H as (H1 & H2 & H3).
  destruct (pcd_write_short fresh_buffer (bytes_of "abcde") 5 510 H1 H2 H3) as (Hw & _).
  apply Hw. vm_compute. reflexivity.
Defined.

(** ** Transfer faults *)

(** C7, as the code has it: when the copy across the caller boundary
    fails, [pcd_read] and [pcd_write] return [-EFAULT] and leave the
    position as it was.  [pcd_read] leaves the device buffer as it was too;
    [pcd_write] leaves every byte outside the range it was writing as it
    was, the bytes of the range are what [copy_from_user] left there. *)
Theorem transfer_fault dev buff c p :
  (read_faults dev buff c p ->
   rw_ret (pcd_read dev buff c p) = - EFAULT /\
   rw_pos (pcd_read dev buff c p) = p /\
   rw_dev (pcd_read dev buff c p) = dev) /\
  (write_faults dev buff c p ->
   rw_ret (pcd_write dev buff c p) = - EFAULT /\
   rw_pos (pcd_write dev buff c p) = p /\
   length (rw_dev (pcd_write dev buff c p)) = length dev /\
   forall i : nat, ~ (p <= Z.of_nat i < p + clamp_count p c) ->
                   rw_dev (pcd_write dev buff c p) !! i = dev !! i).
Proof.
  split.
  - unfold read_faults, pcd_read, copy_to_user. simpl. intros Hf.
    destruct (Z.leb_spec (clamp_count p c) 0) as [Hz|Hpos]; [lia|].
    destruct (Z.eqb_spec (clamp_count p c
                - Z.min (clamp_count p c) (Z.of_nat (length buff))) 0);
      [contradiction|]. simpl. auto.
  - unfold write_faults, pcd_write, copy_from_user. simpl. intros Hf.
    destruct (Z.leb_spec (clamp_count p c) 0) as [Hz|Hpos]; [lia|].
    destruct (Z.eqb_spec (clamp_count p c
                - Z.min (clamp_count p c) (Z.of_nat (length buff))) 0);
      [contradiction|]. simpl.
    repeat split; auto using length_kwrite.
    intros i Hi. apply lookup_kwrite_outside. exact Hi.
Qed.

Lemma transfer_fault_witness :
  (read_faults fresh_buffer (zeros 2) 4 0 /\
   write_faults fresh_buffer (bytes_of "A") 2 0) /\
  rw_ret (pcd_read fresh_buffer (zeros 2) 4 0) = - EFAULT /\
  rw_pos (pcd_read fresh_buffer (zeros 2) 4 0) = 0 /\
  rw_ret (pcd_write fresh_buffer (bytes_of "A") 2 0) = - EFAULT /\
  rw_pos (pcd_write fresh_buffer (bytes_of "A") 2 0) = 0.
Proof.
  assert (H : read_faults fresh_buffer (zeros 2) 4 0 /\
              write_faults fresh_buffer (bytes_of "A") 2 0).
  { split; vm_compute; discriminate. }
  split; [exact H|]. destruct H as (Hr & Hw).
  destruct (transfer_fault fresh_buffer (zeros 2) 4 0) as (Hread & _).
  destruct (transfer_fault fresh_buffer (bytes_of "A") 2 0) as (_ & Hwrite).
  destruct (Hread Hr) as (R1 & R2 & _). destruct (Hwrite Hw) as (W1 & W2 & _).
  repeat split; assumption.
Defined.

(** C7 as stated fails in its last part, that no state is mutated: a write
    of 2 bytes through a pointer that gives access to 1 byte returns
    [-EFAULT] and leaves the position at 0, and byte 0 of the device buffer
    has changed. *)
Lemma pcd_write_fault_mutates :
  write_faults fresh_buffer (bytes_of "A") 2 0 /\
  rw_ret (pcd_write fresh_buffer (bytes_of "A") 2 0) = - EFAULT /\
  rw_pos (pcd_write fresh_buffer (bytes_of "A") 2 0) = 0 /\
  fresh_buffer !! 0%nat = Some "000"%byte /\
  rw_dev (pcd_write fresh_buffer (bytes_of "A") 2 0) !! 0%nat = Some "A"%byte /\
  rw_dev (pcd_write fresh_buffer (bytes_of "A") 2 0) <> fresh_buffer.
Proof.
  vm_compute. repeat split; try reflexivity; discriminate.
Qed.

(** ** Seeking *)

Lemma pcd_lseek_check p off whence c :
  LLONG_MIN + DEV_MEM_SIZE < p <= LLONG_MAX -> is_loff_t off ->
  candidate p off whence = Some c ->
  - two64 + DEV_MEM_SIZE < c <= two64 - 2 /\
  pcd_lseek (File p) off whence =
    if (to_loff_t c <? 0) || (to_loff_t c >? DEV_MEM_SIZE)
    then (- EINVAL, File p) else (to_loff_t c, File (to_loff_t c)).
Proof.
  intros Hp Hoff. unfold candidate, pcd_lseek. simpl f_pos.
  destruct (whence =? SEEK_SET);
    [|destruct (whence =? SEEK_CUR); [|destruct (whence =? SEEK_END)]];
    intros [= <-]; (split; [zlia|]); try reflexivity.
  rewrite to_loff_t_small by exact Hoff. reflexivity.
Qed.

(** C3: [pcd_lseek] takes [offset], [p + offset] or [512 + offset] as the
    candidate position for SEEK_SET, SEEK_CUR and SEEK_END; it returns
    [-EINVAL] for another mode and for a candidate below 0 or above 512,
    leaving the position as it was, and otherwise stores and returns the
    candidate.  [p] is any position above [LLONG_MIN + 512], so any
    non-negative one, and [offset] any [loff_t]. *)
Theorem pcd_lseek_spec p off whence :
  LLONG_MIN + DEV_MEM_SIZE < p <= LLONG_MAX -> is_loff_t off ->
  (candidate p off whence = None ->
   pcd_lseek (File p) off whence = (- EINVAL, File p)) /\
  (forall c, candidate p off whence = Some c ->
             c < 0 \/ c > DEV_MEM_SIZE ->
             pcd_lseek (File p) off whence = (- EINVAL, File p)) /\
  (forall c, candidate p off whence = Some c ->
             0 <= c <= DEV_MEM_SIZE ->
             pcd_lseek (File p) off whence = (c, File c)).
Proof.
  intros Hp Hoff. split; [|split].
  - unfold candidate, pcd_lseek.
    destruct (whence =? SEEK_SET); [discriminate|].
    destruct (whence =? SEEK_CUR); [discriminate|].
    destruct (whence =? SEEK_END); [discriminate|]. reflexivity.
  - intros c Hc Hout.
    destruct (pcd_lseek_check p off whence c Hp Hoff Hc) as [Hr ->].
    destruct (to_loff_t_outside c Hr Hout); zbool; try reflexivity; lia.
  - intros c Hc Hin.
    destruct (pcd_lseek_check p off whence c Hp Hoff Hc) as [Hr ->].
    rewrite to_loff_t_small by zlia.
    zbool; try reflexivity; lia.
Qed.

Lemma pcd_lseek_spec_witness :
  (LLONG_MIN + DEV_MEM_SIZE < 5 <= LLONG_MAX /\ is_loff_t (-3)) /\
  pcd_lseek (File 5) (-3) SEEK_CUR = (2, File 2) /\
  pcd_lseek (File 5) (-3) SEEK_SET = (- EINVAL, File 5) /\
  pcd_lseek (File 5) (-3) 7 = (- EINVAL, File 5).
Proof.
  assert (H : LLONG_MIN + DEV_MEM_SIZE < 5 <= LLONG_MAX /\ is_loff_t (-3)) by zlia.
  split; [exact H|]. destruct H as (H1 & H2).
  split; [|split].
  - destruct (pcd_lseek_spec 5 (-3) SEEK_CUR H1 H2) as (_ & _ & Hin).
    apply (Hin 2); [reflexivity | zlia].
  - destruct (pcd_lseek_spec 5 (-3) SEEK_SET H1 H2) as (_ & Hout & _).
    apply (Hout (-3)); [reflexivity | lia].
  - destruct (pcd_lseek_spec 5 (-3) 7 H1 H2) as (Hmode & _).
    apply Hmode. reflexivity.
Defined.

(** C8: a seek with offset 0 in mode SEEK_END succeeds and yields 512, the
    capacity, whatever the current position. *)
Theorem pcd_lseek_end filp :
  pcd_lseek filp 0 SEEK_END = (DEV_MEM_SIZE, File DEV_MEM_SIZE).
Proof.
  unfold pcd_lseek.
  change (SEEK_END =? SEEK_SET) with false.
  change (SEEK_END =? SEEK_CUR) with false.
  change (SEEK_END =? SEEK_END) with true. cbv iota.
  rewrite Z.add_0_r, to_loff_t_small by zlia.
  zbool; solve [reflexivity | zlia].
Qed.

(** ** Bounds *)

Lemma pcd_read_pos dev buff c p :
  0 <= p <= DEV_MEM_SIZE -> 0 <= rw_pos (pcd_read dev buff c p) <= DEV_MEM_SIZE.
Proof.
  intros Hp. pose proof (clamp_count_lands p c Hp).
  unfold pcd_read. destruct (_ <=? 0); [exact Hp|].
  destruct (copy_to_user _ _ _ _) as [b u]. destruct (negb _); simpl; assumption.
Qed.

Lemma pcd_write_pos dev buff c p :
  0 <= p <= DEV_MEM_SIZE -> 0 <= rw_pos (pcd_write dev buff c p) <= DEV_MEM_SIZE.
Proof.
  intros Hp. pose proof (clamp_count_lands p c Hp).
  unfold pcd_write. destruct (_ <=? 0); [exact Hp|].
  destruct (copy_from_user _ _ _ _) as [b u]. destruct (negb _); simpl; assumption.
Qed.

Lemma pcd_read_span dev buff c p :
  0 <= p <= DEV_MEM_SIZE -> count_ok c ->
  in_buffer_opt (rw_span (pcd_read dev buff c p)).
Proof.
  intros Hp Hc. pose proof (clamp_count_span p c Hp Hc) as Hsp.
  unfold pcd_read. destruct (Z.leb_spec (clamp_count p c) 0); [exact I|].
  destruct (copy_to_user _ _ _ _) as [b u]. destruct (negb _); simpl; auto.
Qed.

Lemma pcd_write_span dev buff c p :
  0 <= p <= DEV_MEM_SIZE -> count_ok c ->
  in_buffer_opt (rw_span (pcd_write dev buff c p)).
Proof.
  intros Hp Hc. pose proof (clamp_count_span p c Hp Hc) as Hsp.
  unfold pcd_write. destruct (Z.leb_spec (clamp_count p c) 0); [exact I|].
  destruct (copy_from_user _ _ _ _) as [b u]. destruct (negb _); simpl; auto.
Qed.

Lemma pcd_lseek_pos filp off whence :
  0 <= f_pos filp <= DEV_MEM_SIZE ->
  0 <= f_pos (snd (pcd_lseek filp off whence)) <= DEV_MEM_SIZE.
Proof.
  intros Hp.
  assert (Hcheck : forall t,
             0 <= f_pos (snd (if (t <? 0) || (t >? DEV_MEM_SIZE)
                              then (- EINVAL, filp) else (t, File t)))
               <= DEV_MEM_SIZE).
  { intros t. zbool; try exact Hp; lia. }
  unfold pcd_lseek.
  destruct (whence =? SEEK_SET); [apply Hcheck|].
  destruct (whence =? SEEK_CUR); [apply Hcheck|].
  destruct (whence =? SEEK_END); [apply Hcheck|]. exact Hp.
Qed.

Lemma positions_ok_insert s dev fd filp :
  positions_ok s -> 0 <= f_pos filp <= DEV_MEM_SIZE ->
  positions_ok (System dev (<[fd := filp]> (files s))).
Proof.
  intros Hs Hf fd' filp'. simpl. rewrite lookup_insert.
  case_decide; [intros [= <-]; exact Hf | apply Hs].
Qed.

(** X16: through the table of open files, every request (open, read,
    write, seek, close) leaves the position of every open file inside
    [0, 512], whatever its arguments; and when a read or a write is made at
    the file's own position with a count of [count_ok], the range of the
    device buffer that it hands to its copy primitive lies inside indices
    [0, 512). *)
Theorem dispatch_in_bounds s req :
  positions_ok s ->
  positions_ok (snd (dispatch req s)) /\
  (request_ok req -> in_buffer_opt (r_span (fst (dispatch req s)))).
Proof.
  intros Hs. destruct req as [|fd buff c|fd buff c|fd off whence|fd]; simpl.
  - split; [|intros _; exact I].
    apply positions_ok_insert; [exact Hs|]. simpl. zlia.
  - destruct (files s !! fd) as [filp|] eqn:Hfd; simpl; [|auto].
    pose proof (Hs fd filp Hfd) as Hp. split.
    + apply positions_ok_insert; [exact Hs|]. simpl. apply pcd_read_pos, Hp.
    + intros Hc. apply pcd_read_span; assumption.
  - destruct (files s !! fd) as [filp|] eqn:Hfd; simpl; [|auto].
    pose proof (Hs fd filp Hfd) as Hp. split.
    + apply positions_ok_insert; [exact Hs|]. simpl. apply pcd_write_pos, Hp.
    + intros Hc. apply pcd_write_span; assumption.
  - destruct (files s !! fd) as [filp|] eqn:Hfd; simpl; [|auto].
    pose proof (pcd_lseek_pos filp off whence (Hs fd filp Hfd)) as Hp.
    destruct (pcd_lseek filp off whence) as [ret filp']. simpl in *.
    split; [|intros _; exact I]. apply positions_ok_insert; assumption.
  - destruct (files s !! fd) as [filp|] eqn:Hfd; simpl; [|auto].
    split; [|intros _; exact I]. intros fd' filp'. simpl.
    rewrite lookup_delete. case_decide; [discriminate | apply Hs].
Qed.

Lemma dispatch_in_bounds_witness :
  (positions_ok one_file /\ request_ok (Write 3 (bytes_of "abcde") 5)) /\
  positions_ok (snd (dispatch (Write 3 (bytes_of "abcde") 5) one_file)) /\
  in_buffer_opt (r_span (fst (dispatch (Write 3 (bytes_of "abcde") 5) one_file))).
Proof.
  assert (H : positions_ok one_file /\ request_ok (Write 3 (bytes_of "abcde") 5)).
  { split.
    - intros fd filp Hfd. unfold one_file in Hfd. simpl in Hfd.
      apply lookup_singleton_Some in Hfd as [_ <-]. simpl. zlia.
    - simpl. zlia. }
  split; [exact H|]. destruct H as (H1 & H2).
  destruct (dispatch_in_bounds one_file (Write 3 (bytes_of "abcde") 5) H1)
    as (Hpos & Hspan).
  split; [exact Hpos | exact (Hspan H2)].
Defined.


(** ** Round trip *)

Lemma pcd_write_read dev (data buff : list byte) :
  length dev = 512%nat ->
  (length data <= 512)%nat -> (length data <= length buff)%nat ->
  let n := Z.of_nat (length data) in
  let w := pcd_write dev data n 0 in
  let r := pcd_read (rw_dev w) buff n 0 in
  rw_ret r = n /\ take (length data) (rw_user r) = data.
Proof.
  intros Hdev Hdata Hbuff n w r. subst w r.
  assert (Hmin : Z.min n (DEV_MEM_SIZE - 0) = n) by zlia.
  rewrite pcd_write_eq by zlia. rewrite Hmin. simpl.
  destruct (Z.leb_spec n 0) as [Hz|Hpos].
  - assert (Hn : n = 0) by lia. rewrite Hn.
    assert (data = []) as -> by (apply length_zero_iff_nil; lia).
    simpl. split; reflexivity.
  - simpl. rewrite pcd_read_eq by zlia.
    rewrite Hmin. simpl. destruct (Z.leb_spec n 0) as [Hz|_]; [lia|]. simpl.
    unfold n. rewrite kread_kwrite by lia.
    split; [reflexivity|]. apply take_app_length.
Qed.

(** C5: for a byte sequence [B] of at most 512 bytes, writing [B] through a
    file at position 0 and then reading [length B] bytes at position 0,
    through the same file or another one, returns [B]. *)
Theorem write_then_read s fd1 fd2 (B buff : list byte) :
  length (device_buffer s) = 512%nat ->
  files s !! fd1 = Some (File 0) -> is_Some (files s !! fd2) ->
  (length B <= 512)%nat -> (length B <= length buff)%nat ->
  let n := Z.of_nat (length B) in
  let s1 := snd (dispatch (Write fd1 B n) s) in
  let s2 := snd (dispatch (Lseek fd2 0 SEEK_SET) s1) in
  let r := fst (dispatch (Read fd2 buff n) s2) in
  r_ret r = n /\ take (length B) (r_user r) = B.
Proof.
  intros Hdev Hfd1 Hfd2 HB Hbuff n s1 s2 r.
  pose proof (pcd_write_read (device_buffer s) B buff Hdev HB Hbuff) as Hrt.
  simpl in Hrt. fold n in Hrt.
  assert (H1 : device_buffer s1 = rw_dev (pcd_write (device_buffer s) B n 0)).
  { unfold s1. simpl. rewrite Hfd1. reflexivity. }
  assert (Hopen : is_Some (files s1 !! fd2)).
  { unfold s1. simpl. rewrite Hfd1. simpl. rewrite lookup_insert.
    case_decide; [eexists; reflexivity | exact Hfd2]. }
  destruct Hopen as [filp Hfilp].
  assert (H2 : device_buffer s2 = device_buffer s1 /\ files s2 !! fd2 = Some (File 0)).
  { unfold s2. simpl. rewrite Hfilp. simpl. split; [reflexivity|].
    apply lookup_insert_eq. }
  destruct H2 as [H2 H3].
  unfold r. simpl. rewrite H3. simpl. rewrite H2, H1. exact Hrt.
Qed.

Lemma write_then_read_witness :
  (length (device_buffer two_files) = 512%nat /\
   files two_files !! 0%nat = Some (File 0) /\
   is_Some (files two_files !! 1%nat) /\
   (length (bytes_of "HelloWorld") <= 512)%nat /\
   (length (bytes_of "HelloWorld") <= length (zeros 16))%nat) /\
  take (length (bytes_of "HelloWorld"))
    (r_user (fst (dispatch (Read 1 (zeros 16) 10)
       (snd (dispatch (Lseek 1 0 SEEK_SET)
          (snd (dispatch (Write 0 (bytes_of "HelloWorld") 10) two_files)))))))
  = bytes_of "HelloWorld".
Proof.
  assert (H : length (device_buffer two_files) = 512%nat /\
              files two_files !! 0%nat = Some (File 0) /\
              is_Some (files two_files !! 1%nat) /\
              (length (bytes_of "HelloWorld") <= 512)%nat /\
              (length (bytes_of "HelloWorld") <= length (zeros 16))%nat).
  { split; [reflexivity|]. split; [reflexivity|].
    split; [eexists; reflexivity|]. split; vm_compute; lia. }
  split; [exact H|]. destruct H as (H1 & H2 & H3 & H4 & H5).
  exact (proj2 (write_then_read two_files 0 1 (bytes_of "HelloWorld") (zeros 16)
                  H1 H2 H3 H4 H5)).
Defined.

(** ** Closing *)

Lemma release_file_id fd s filp :
  files s !! fd = Some filp -> release_file fd s = Some (0, s).
Proof.
  intros Hfd. unfold release_file. rewrite Hfd. simpl.
  rewrite insert_id by exact Hfd. destruct s; reflexivity.
Qed.

Lemma release_times_id n fd s filp :
  files s !! fd = Some filp -> release_times n fd s = Some (replicate n 0, s).
Proof.
  intros Hfd. induction n as [|n IH]; simpl; [reflexivity|].
  rewrite (release_file_id fd s filp Hfd). rewrite IH. reflexivity.
Qed.

(** C9: [pcd_release], called any number of times on an open file, returns
    0 every time and leaves the device buffer and the position of every
    other open file as they were; so does the close that takes the file out
    of the table. *)
Theorem release_frame n fd s :
  is_Some (files s !! fd) ->
  (exists s', release_times n fd s = Some (replicate n 0, s') /\
              device_buffer s' = device_buffer s /\
              forall fd', fd' <> fd -> files s' !! fd' = files s !! fd') /\
  r_ret (fst (dispatch (Close fd) s)) = 0 /\
  device_buffer (snd (dispatch (Close fd) s)) = device_buffer s /\
  forall fd', fd' <> fd ->
              files (snd (dispatch (Close fd) s)) !! fd' = files s !! fd'.
Proof.
  intros [filp Hfd]. split.
  - exists s. rewrite (release_times_id n fd s filp Hfd). auto.
  - simpl. rewrite Hfd. simpl. repeat split.
    intros fd' Hne. apply lookup_delete_ne. congruence.
Qed.

Lemma release_frame_witness :
  is_Some (files two_files !! 0%nat) /\
  release_times 3 0 two_files = Some ([0; 0; 0], two_files) /\
  files (snd (dispatch (Close 0) two_files)) !! 1%nat = Some (File 7).
Proof.
  assert (H : is_Some (files two_files !! 0%nat)) by (eexists; reflexivity).
  split; [exact H|].
  destruct (release_frame 3 0 two_files H) as ((s' & Hrel & _ & _) & _ & _ & Hother).
  split.
  - reflexivity.
  - rewrite (Hother 1%nat) by discriminate. reflexivity.
Defined.

(** ** Footprint *)

Lemma pcd_write_frame dev buff c p :
  is_size_t c ->
  0 <= rw_ret (pcd_write dev buff c p) ->
  length (rw_dev (pcd_write dev buff c p)) = length dev /\
  forall i : nat,
    ~ (p <= Z.of_nat i < p + rw_ret (pcd_write dev buff c p)) ->
    rw_dev (pcd_write dev buff c p) !! i = dev !! i.
Proof.
  intros Hc. pose proof (clamp_count_size_t p c Hc) as Hn. unfold is_size_t in Hn.
  unfold pcd_write. destruct (Z.leb_spec (clamp_count p c) 0) as [Hz|Hpos].
  - simpl. zlia.
  - unfold copy_from_user. destruct (negb _); simpl.
    + zlia.
    + unfold to_ssize_t.
      destruct (to_loff_t_cases (clamp_count p c) Hn) as [[_ ->]|[Hbig ->]].
      * intros _. split; [apply length_kwrite|].
        intros i Hi. apply lookup_kwrite_outside. exact Hi.
      * zlia.
Qed.

(** C10: a read, a seek, an open and a close leave every byte of the device
    buffer as it was, whether they succeed or fail, and a write that
    succeeds with [n] bytes at position [p] changes no byte outside indices
    [p .. p + n - 1]. *)
Theorem dispatch_footprint s :
  (forall req, is_write req = false ->
               device_buffer (snd (dispatch req s)) = device_buffer s) /\
  (forall fd buff c filp,
      is_size_t c -> files s !! fd = Some filp ->
      0 <= r_ret (fst (dispatch (Write fd buff c) s)) ->
      length (device_buffer (snd (dispatch (Write fd buff c) s)))
        = length (device_buffer s) /\
      forall i : nat,
        ~ (f_pos filp <= Z.of_nat i
           < f_pos filp + r_ret (fst (dispatch (Write fd buff c) s))) ->
        device_buffer (snd (dispatch (Write fd buff c) s)) !! i
          = device_buffer s !! i).
Proof.
  split.
  - intros [|fd buff c|fd buff c|fd off whence|fd] Hw; try discriminate Hw; simpl.
    + reflexivity.
    + destruct (files s !! fd) as [filp|]; simpl; [|reflexivity].
      unfold pcd_read. destruct (_ <=? 0); [reflexivity|].
      destruct (copy_to_user _ _ _ _) as [b u]. destruct (negb _); reflexivity.
    + destruct (files s !! fd) as [filp|]; simpl; [|reflexivity].
      destruct (pcd_lseek filp off whence). reflexivity.
    + destruct (files s !! fd) as [filp|]; reflexivity.
  - intros fd buff c filp Hc Hfd. simpl. rewrite Hfd. simpl.
    apply pcd_write_frame. exact Hc.
Qed.

Lemma dispatch_footprint_witness :
  (is_write (Read 3 (zeros 4) 4) = false /\ is_size_t 5 /\
   files one_file !! 3%nat = Some (File 510) /\
   0 <= r_ret (fst (dispatch (Write 3 (bytes_of "abcde") 5) one_file))) /\
  device_buffer (snd (dispatch (Read 3 (zeros 4) 4) one_file))
    = device_buffer one_file /\
  device_buffer (snd (dispatch (Write 3 (bytes_of "abcde") 5) one_file)) !! 509%nat
    = device_buffer one_file !! 509%nat.
Proof.
  assert (H : is_write (Read 3 (zeros 4) 4) = false /\ is_size_t 5 /\
              files one_file !! 3%nat = Some (File 510) /\
              0 <= r_ret (fst (dispatch (Write 3 (bytes_of "abcde") 5) one_file))).
  { split; [reflexivity|]. split; [zlia|].
    split; [reflexivity|]. vm_compute. discriminate. }
  split; [exact H|]. destruct H as (H1 & H2 & H3 & H4).
  destruct (dispatch_footprint one_file) as (Hro & Hwr).
  split.
  - exact (Hro _ H1).
  - destruct (Hwr 3%nat (bytes_of "abcde") 5 (File 510) H2 H3 H4) as (_ & Hout).
    apply Hout. simpl f_pos. intros [Hle _]. lia.
Defined.

(** * The rest of the driver *)

Example init_granted :
  let '(ret, (g, calls)) := pcd_driver_init all_granted (unloaded, []) in
  ret = 0 /\ device_number g = 251658240 /\ length calls = 5%nat.
Proof. vm_compute. auto. Qed.

Example init_class_refused :
  let '(ret, (g, calls)) := pcd_driver_init class_refused (unloaded, []) in
  ret = -12 /\
  calls = [AllocChrdevRegion 0 1 "pcd_devices" 0 251658240; CdevInit;
           CdevAdd 251658240 1 0; ClassCreate "pcd_class" (two64 - 12);
           CdevDel; UnregisterChrdevRegion 251658240 1].
Proof. vm_compute. auto. Qed.

(** ** Loading *)

Lemma IS_ERR_errno ptr :
  is_size_t ptr -> IS_ERR ptr = true ->
  to_int (PTR_ERR ptr) = ptr - two64 /\ - MAX_ERRNO <= ptr - two64 < 0.
Proof.
  unfold IS_ERR, PTR_ERR. intros Hp He. apply Z.leb_le in He.
  assert (Hlong : to_loff_t ptr = ptr - two64).
  { destruct (to_loff_t_cases ptr Hp) as [[Hle _]|[_ ->]]; [|reflexivity].
    unfold MAX_ERRNO in He. zlia. }
  rewrite Hlong. unfold to_int, MAX_ERRNO in *. split; [|zlia].
  change (2 ^ 31) with 2147483648. change (2 ^ 32) with 4294967296.
  rewrite Z.mod_small; zlia.
Qed.

Ltac init_cases k :=
  unfold pcd_driver_init, first_error, steps_ok, kbind, kret, alloc_chrdev_region,
    cdev_init, cdev_add, unregister_chrdev_region, class_create, device_create,
    class_destroy, cdev_del, set_class_pcd, set_device_pcd, global, kcalled;
  simpl;
  destruct (Z.ltb_spec (alloc_ret k) 0); simpl;
  [|destruct (Z.ltb_spec (add_ret k) 0); simpl;
    [|destruct (IS_ERR (class_ptr k)) eqn:?; simpl;
      [|destruct (IS_ERR (device_ptr k)) eqn:?; simpl]]].

(** X1: [pcd_driver_init] returns 0 exactly when the four steps succeed,
    and otherwise the error of the first step that fails, a negative
    number. *)
Theorem pcd_driver_init_status k g :
  answers_typed k ->
  match first_error k with
  | None => steps_ok k /\ fst (pcd_driver_init k (g, [])) = 0
  | Some e => ~ steps_ok k /\ fst (pcd_driver_init k (g, [])) = e /\ e < 0
  end.
Proof.
  intros (Ha & Hb & Hc & Hd).
  init_cases k.
  - split; [intros (? & _); lia | split; [reflexivity | lia]].
  - split; [intros (_ & ? & _); lia | split; [reflexivity | lia]].
  - destruct (IS_ERR_errno (class_ptr k) Hc Heqb) as [-> ?].
    split; [intros (_ & _ & ? & _); discriminate | split; [reflexivity | lia]].
  - destruct (IS_ERR_errno (device_ptr k) Hd Heqb0) as [-> ?].
    split; [intros (_ & _ & _ & ?); discriminate | split; [reflexivity | lia]].
  - repeat split; solve [lia | reflexivity].
Qed.

Lemma pcd_driver_init_status_witness :
  answers_typed class_refused /\
  fst (pcd_driver_init class_refused (unloaded, [])) = -12.
Proof.
  assert (H : answers_typed class_refused).
  { unfold answers_typed, is_int, class_refused. simpl. zlia. }
  split; [exact H|].
  pose proof (pcd_driver_init_status class_refused unloaded H) as Hs.
  change (first_error class_refused) with (Some (-12)) in Hs.
  exact (proj1 (proj2 Hs)).
Defined.

(** X2: when [pcd_driver_init] fails it has released, most recent first,
    everything that it had registered, and nothing is left in the registry;
    when it succeeds the registry holds the region of device numbers, the
    character device, the class and the device. *)
Theorem pcd_driver_init_registry k g :
  registry (snd (snd (pcd_driver_init k (g, [])))) [] =
  Some (match first_error k with
        | Some _ => []
        | None => [HeldDevice (class_ptr k) (alloc_dev k) (device_ptr k);
                   HeldClass (class_ptr k);
                   HeldCdev (alloc_dev k) 1;
                   HeldRegion (alloc_dev k) 1]
        end).
Proof.
  init_cases k;
    repeat match goal with
      | H : ?a < 0 |- context [?a <? 0] =>
          rewrite (proj2 (Z.ltb_lt a 0) H)
      | H : 0 <= ?a |- context [?a <? 0] =>
          rewrite (proj2 (Z.ltb_ge a 0) H)
      | H : IS_ERR ?p = _ |- context [IS_ERR ?p] => rewrite H
      end; simpl; rewrite ?Z.eqb_refl; simpl; rewrite ?Z.eqb_refl; reflexivity.
Qed.

(** X3: after a successful [pcd_driver_init], [pcd_driver_cleanup] releases
    the device, the class, the character device and the region of device
    numbers, in this order, and leaves the registry empty.  The two
    pointers are not null, as the kernel grants them. *)
Theorem load_then_unload k g :
  steps_ok k -> class_ptr k <> 0 -> device_ptr k <> 0 ->
  registry (snd (snd (pcd_driver_cleanup (snd (pcd_driver_init k (g, [])))))) []
    = Some [] /\
  snd (snd (pcd_driver_cleanup (snd (pcd_driver_init k (g, [])))))
    = snd (snd (pcd_driver_init k (g, [])))
      ++ [DeviceDestroy (class_ptr k) (alloc_dev k); ClassDestroy (class_ptr k);
          CdevDel; UnregisterChrdevRegion (alloc_dev k) 1].
Proof.
  intros (Ha & Hb & Hc & Hd) Hcls Hdev.
  unfold pcd_driver_cleanup, device_destroy.
  init_cases k; try lia; try congruence.
  destruct (Z.eqb_spec (device_ptr k) 0); [contradiction|].
  destruct (Z.eqb_spec (class_ptr k) 0); [contradiction|]. simpl.
  rewrite ?(proj2 (Z.ltb_ge (alloc_ret k) 0) Ha).
  rewrite ?(proj2 (Z.ltb_ge (add_ret k) 0) Hb).
  rewrite Heqb, Heqb0. simpl. rewrite !Z.eqb_refl. simpl. rewrite ?Z.eqb_refl.
  split; reflexivity.
Qed.

Lemma load_then_unload_witness :
  (steps_ok all_granted /\ class_ptr all_granted <> 0 /\ device_ptr all_granted <> 0) /\
  registry (snd (snd (pcd_driver_cleanup
                        (snd (pcd_driver_init all_granted (unloaded, [])))))) []
    = Some [].
Proof.
  assert (H : steps_ok all_granted /\ class_ptr all_granted <> 0
              /\ device_ptr all_granted <> 0).
  { unfold steps_ok, all_granted. simpl. repeat split; try lia; discriminate. }
  split; [exact H|]. destruct H as (H1 & H2 & H3).
  exact (proj1 (load_then_unload all_granted unloaded H1 H2 H3)).
Defined.

(** ** What a transfer moves *)

Lemma kwrite_nothing dev start n cell : n <= 0 -> kwrite dev start n cell = dev.
Proof.
  intros Hn. apply list_eq. intros i. apply lookup_kwrite_outside. lia.
Qed.

Lemma lookup_kread dev start n (i : nat) :
  (i < Z.to_nat n)%nat -> kread dev start n !! i = dev !! (Z.to_nat start + i)%nat.
Proof.
  intros Hi. unfold kread. rewrite lookup_take_lt by exact Hi. apply lookup_drop.
Qed.

Lemma kread_app dev start n1 n2 :
  0 <= start -> 0 <= n1 -> 0 <= n2 ->
  kread dev start (n1 + n2) = kread dev start n1 ++ kread dev (start + n1) n2.
Proof.
  intros Hs H1 H2. unfold kread.
  rewrite !Z2Nat.inj_add by lia. rewrite <- drop_drop. apply eq_sym, take_take_drop.
Qed.

(** The cells that a write stored are read back as they were stored. *)
Lemma kread_kwrite_take dev start n (data : list byte) :
  0 <= start -> 0 <= n <= Z.of_nat (length data) ->
  start + n <= Z.of_nat (length dev) ->
  kread (kwrite dev start n (fun j => nth (Z.to_nat j) data "000"%byte)) start n
  = take (Z.to_nat n) data.
Proof.
  intros Hs Hn Hb. apply list_eq. intros i.
  destruct (decide (i < Z.to_nat n)%nat) as [Hi|Hi].
  - rewrite lookup_kread by exact Hi.
    rewrite lookup_kwrite_inside by (rewrite ?length_kwrite; lia).
    rewrite lookup_take_lt by exact Hi.
    replace (Z.to_nat (Z.of_nat (Z.to_nat start + i) - start)) with i by lia.
    destruct (lookup_lt_is_Some_2 data i ltac:(lia)) as [b Hb'].
    rewrite Hb'. f_equal. apply nth_lookup_Some with (d := "000"%byte) in Hb'.
    exact Hb'.
  - unfold kread. rewrite !lookup_take_ge by lia. reflexivity.
Qed.

(** A read in the region that finds room in the caller's window. *)
Lemma pcd_read_data dev buff c p :
  length dev = 512%nat ->
  0 <= p <= DEV_MEM_SIZE -> 0 <= c -> p + c <= SIZE_MAX ->
  Z.min c (DEV_MEM_SIZE - p) <= Z.of_nat (length buff) ->
  let n := Z.min c (DEV_MEM_SIZE - p) in
  rw_ret (pcd_read dev buff c p) = n /\
  rw_pos (pcd_read dev buff c p) = p + n /\
  rw_user (pcd_read dev buff c p) = kread dev p n ++ drop (Z.to_nat n) buff.
Proof.
  intros Hlen Hp Hc Hs Hfit n. rewrite pcd_read_eq by assumption. fold n. simpl.
  assert (Hk : Z.of_nat (length (kread dev p n)) = n) by (apply length_kread; zlia).
  destruct (Z.leb_spec n 0) as [Hz|Hpos]; simpl.
  - assert (Hn : n = 0) by zlia. rewrite Hn. repeat split; lia.
  - repeat split. f_equal. f_equal. lia.
Qed.

(** A write in the region from a window that holds the bytes. *)
Lemma pcd_write_data dev buff c p :
  0 <= p <= DEV_MEM_SIZE -> 0 <= c -> p + c <= SIZE_MAX ->
  Z.min c (DEV_MEM_SIZE - p) <= Z.of_nat (length buff) ->
  let n := Z.min c (DEV_MEM_SIZE - p) in
  rw_pos (pcd_write dev buff c p) = p + n /\
  rw_dev (pcd_write dev buff c p)
    = kwrite dev p n (fun j => nth (Z.to_nat j) buff "000"%byte) /\
  rw_user (pcd_write dev buff c p) = buff.
Proof.
  intros Hp Hc Hs Hfit n. rewrite pcd_write_eq by assumption. fold n. simpl.
  destruct (Z.leb_spec n 0) as [Hz|Hpos]; simpl.
  - rewrite kwrite_nothing by exact Hz. repeat split. zlia.
  - repeat split.
Qed.

(** X4: a write in the region stores the first [min(c, 512 - p)] bytes of
    the source at indices [p ..] of the device buffer, in order; the buffer
    keeps its 512 bytes and the source is left as it was. *)
Theorem pcd_write_stores dev (buff : user_window) c p :
  length dev = 512%nat ->
  c = Z.of_nat (length buff) ->
  0 <= p <= DEV_MEM_SIZE -> p + c <= SIZE_MAX ->
  kread (rw_dev (pcd_write dev buff c p)) p (Z.min c (DEV_MEM_SIZE - p))
    = take (Z.to_nat (Z.min c (DEV_MEM_SIZE - p))) buff /\
  length (rw_dev (pcd_write dev buff c p)) = 512%nat /\
  rw_user (pcd_write dev buff c p) = buff.
Proof.
  intros Hlen Hc Hp Hs.
  destruct (pcd_write_data dev buff c p) as (_ & -> & ->); try lia.
  rewrite length_kwrite. repeat split; [|exact Hlen].
  apply kread_kwrite_take; zlia.
Qed.

Lemma pcd_write_stores_witness :
  (length fresh_buffer = 512%nat /\ 5 = Z.of_nat (length (bytes_of "abcde")) /\
   0 <= 510 <= DEV_MEM_SIZE /\ 510 + 5 <= SIZE_MAX) /\
  kread (rw_dev (pcd_write fresh_buffer (bytes_of "abcde") 5 510)) 510 2
    = bytes_of "ab".
Proof.
  assert (H : length fresh_buffer = 512%nat /\ 5 = Z.of_nat (length (bytes_of "abcde")) /\
              0 <= 510 <= DEV_MEM_SIZE /\ 510 + 5 <= SIZE_MAX).
  { split; [reflexivity|]. split; [reflexivity|]. split; zlia. }
  split; [exact H|]. destruct H as (H1 & H2 & H3 & H4).
  exact (proj1 (pcd_write_stores fresh_buffer (bytes_of "abcde") 5 510 H1 H2 H3 H4)).
Defined.

(** X5: what was written at a position of the region is read back at that
    position: a write of [B] at [p] followed by a read of [length B] bytes
    at [p] returns the bytes of [B] that fitted, [min(length B, 512 - p)]
    of them. *)
Theorem pcd_write_read_at dev (B buff : list byte) c p :
  length dev = 512%nat ->
  c = Z.of_nat (length B) ->
  0 <= p <= DEV_MEM_SIZE -> p + c <= SIZE_MAX ->
  Z.min c (DEV_MEM_SIZE - p) <= Z.of_nat (length buff) ->
  let n := Z.min c (DEV_MEM_SIZE - p) in
  let r := pcd_read (rw_dev (pcd_write dev B c p)) buff c p in
  rw_ret r = n /\ take (Z.to_nat n) (rw_user r) = take (Z.to_nat n) B.
Proof.
  intros Hlen Hc Hp Hs Hfit n r.
  destruct (pcd_write_data dev B c p) as (_ & Hdev & _); try lia.
  fold n in Hdev.
  destruct (pcd_read_data (rw_dev (pcd_write dev B c p)) buff c p)
    as (Hret & _ & Huser); try assumption; try lia.
  { rewrite Hdev, length_kwrite. exact Hlen. }
  subst r. fold n in Hret, Huser. split; [exact Hret|].
  rewrite Huser, Hdev. rewrite kread_kwrite_take by zlia.
  apply take_app_length'. rewrite length_take. lia.
Qed.

Lemma pcd_write_read_at_witness :
  (length fresh_buffer = 512%nat /\ 5 = Z.of_nat (length (bytes_of "abcde")) /\
   0 <= 510 <= DEV_MEM_SIZE /\ 510 + 5 <= SIZE_MAX /\
   Z.min 5 (DEV_MEM_SIZE - 510) <= Z.of_nat (length (zeros 5))) /\
  take 2 (rw_user (pcd_read (rw_dev (pcd_write fresh_buffer (bytes_of "abcde") 5 510))
                            (zeros 5) 5 510)) = bytes_of "ab".
Proof.
  assert (H : length fresh_buffer = 512%nat /\ 5 = Z.of_nat (length (bytes_of "abcde")) /\
              0 <= 510 <= DEV_MEM_SIZE /\ 510 + 5 <= SIZE_MAX /\
              Z.min 5 (DEV_MEM_SIZE - 510) <= Z.of_nat (length (zeros 5))).
  { split; [reflexivity|]. split; [reflexivity|]. split; [zlia|]. split; [zlia|].
    vm_compute. discriminate. }
  split; [exact H|]. destruct H as (H1 & H2 & H3 & H4 & H5).
  exact (proj2 (pcd_write_read_at fresh_buffer (bytes_of "abcde") (zeros 5) 5 510
                  H1 H2 H3 H4 H5)).
Defined.

(** X6: a read in the region never stores more than it was asked for: the
    count handed to [copy_to_user] is at most [count], the caller's window
    keeps its length, and its bytes from index [count] on are left as they
    were, whether the copy succeeds or faults. *)
Theorem pcd_read_no_overrun dev buff c p :
  length dev = 512%nat ->
  0 <= p <= DEV_MEM_SIZE -> 0 <= c -> p + c <= SIZE_MAX ->
  length (rw_user (pcd_read dev buff c p)) = length buff /\
  drop (Z.to_nat c) (rw_user (pcd_read dev buff c p)) = drop (Z.to_nat c) buff /\
  match rw_span (pcd_read dev buff c p) with
  | Some sp => sp_start sp = p /\ 0 < sp_len sp <= c
  | None => True
  end.
Proof.
  intros Hlen Hp Hc Hs. unfold pcd_read. rewrite clamp_count_min by assumption.
  set (n := Z.min c (DEV_MEM_SIZE - p)).
  destruct (Z.leb_spec n 0) as [Hz|Hpos]; [simpl; auto|].
  unfold copy_to_user.
  set (k := Z.min n (Z.of_nat (length buff))).
  assert (Hk : Z.of_nat (length (kread dev p k)) = k)
    by (apply length_kread; zlia).
  assert (Hu : length (kread dev p k ++ drop (length (kread dev p k)) buff)
               = length buff).
  { rewrite length_app, length_drop. lia. }
  assert (Hd : drop (Z.to_nat c) (kread dev p k ++ drop (length (kread dev p k)) buff)
               = drop (Z.to_nat c) buff).
  { rewrite drop_app, drop_drop.
    rewrite (drop_ge (kread dev p k)) by lia. simpl. f_equal. lia. }
  destruct (negb _); simpl; (split; [exact Hu|]; split; [exact Hd|]; lia).
Qed.

Lemma pcd_read_no_overrun_witness :
  (length fresh_buffer = 512%nat /\ 0 <= 508 <= DEV_MEM_SIZE /\ 0 <= 8 /\
   508 + 8 <= SIZE_MAX) /\
  length (rw_user (pcd_read fresh_buffer (bytes_of "0123456789") 8 508)) = 10%nat /\
  drop 8 (rw_user (pcd_read fresh_buffer (bytes_of "0123456789") 8 508))
    = bytes_of "89".
Proof.
  assert (H : length fresh_buffer = 512%nat /\ 0 <= 508 <= DEV_MEM_SIZE /\ 0 <= 8 /\
              508 + 8 <= SIZE_MAX).
  { split; [reflexivity|]. split; [zlia|]. split; [lia|zlia]. }
  split; [exact H|]. destruct H as (H1 & H2 & H3 & H4).
  destruct (pcd_read_no_overrun fresh_buffer (bytes_of "0123456789") 8 508 H1 H2 H3 H4)
    as (Hl & Hd & _).
  split; [exact Hl | exact Hd].
Defined.

(** ** Transfers in a row *)

(** X7: two reads in a row deliver what one read of the two counts
    together delivers: the returned counts add up, the bytes are those of
    the single read in the same order, and the position ends at the same
    place. *)
Theorem pcd_read_compose dev (b1 b2 b : user_window) a1 a2 p :
  length dev = 512%nat ->
  0 <= p <= DEV_MEM_SIZE -> 0 <= a1 -> 0 <= a2 -> p + a1 + a2 <= SIZE_MAX ->
  a1 <= Z.of_nat (length b1) -> a2 <= Z.of_nat (length b2) ->
  a1 + a2 <= Z.of_nat (length b) ->
  let r1 := pcd_read dev b1 a1 p in
  let r2 := pcd_read dev b2 a2 (rw_pos r1) in
  let r := pcd_read dev b (a1 + a2) p in
  rw_ret r = rw_ret r1 + rw_ret r2 /\
  rw_pos r = rw_pos r2 /\
  take (Z.to_nat (rw_ret r)) (rw_user r)
    = take (Z.to_nat (rw_ret r1)) (rw_user r1)
      ++ take (Z.to_nat (rw_ret r2)) (rw_user r2).
Proof.
  intros Hlen Hp H1 H2 Hs Hb1 Hb2 Hb r1 r2 r.
  destruct (pcd_read_data dev b1 a1 p) as (R1 & P1 & U1); try assumption; try lia.
  fold r1 in R1, P1, U1.
  destruct (pcd_read_data dev b2 a2 (rw_pos r1)) as (R2 & P2 & U2);
    try assumption; try (rewrite P1; zlia).
  fold r2 in R2, P2, U2.
  destruct (pcd_read_data dev b (a1 + a2) p) as (R & P & U);
    try assumption; try lia.
  fold r in R, P, U.
  set (n1 := Z.min a1 (DEV_MEM_SIZE - p)) in *.
  set (n2 := Z.min a2 (DEV_MEM_SIZE - rw_pos r1)) in *.
  assert (Hn : Z.min (a1 + a2) (DEV_MEM_SIZE - p) = n1 + n2) by lia.
  rewrite Hn in R, P, U.
  assert (K : forall q m w, 0 <= q -> 0 <= m -> q + m <= DEV_MEM_SIZE ->
              take (Z.to_nat m) (kread dev q m ++ w) = kread dev q m).
  { intros q m w Hq Hm Hqm. apply take_app_length'.
    pose proof (length_kread dev q m Hq Hm). zlia. }
  rewrite R, R1, R2, P, P2, P1, U, U1, U2.
  repeat split; try lia.
  rewrite !K by zlia. rewrite (kread_app dev p n1 n2) by zlia.
  f_equal. f_equal. symmetry. exact P1.
Qed.

Lemma pcd_read_compose_witness :
  (length fresh_buffer = 512%nat /\ 0 <= 500 <= DEV_MEM_SIZE /\ 0 <= 8 /\ 0 <= 8 /\
   500 + 8 + 8 <= SIZE_MAX /\ 8 <= Z.of_nat (length (zeros 8)) /\
   8 <= Z.of_nat (length (zeros 8)) /\ 8 + 8 <= Z.of_nat (length (zeros 16))) /\
  rw_ret (pcd_read fresh_buffer (zeros 16) (8 + 8) 500)
    = rw_ret (pcd_read fresh_buffer (zeros 8) 8 500)
      + rw_ret (pcd_read fresh_buffer (zeros 8) 8
                  (rw_pos (pcd_read fresh_buffer (zeros 8) 8 500))).
Proof.
  assert (H : length fresh_buffer = 512%nat /\ 0 <= 500 <= DEV_MEM_SIZE /\ 0 <= 8 /\
              0 <= 8 /\ 500 + 8 + 8 <= SIZE_MAX /\ 8 <= Z.of_nat (length (zeros 8)) /\
              8 <= Z.of_nat (length (zeros 8)) /\ 8 + 8 <= Z.of_nat (length (zeros 16))).
  { split; [reflexivity|]. split; [zlia|]. split; [lia|]. split; [lia|].
    split; [zlia|]. repeat split; vm_compute; discriminate. }
  split; [exact H|]. destruct H as (H1 & H2 & H3 & H4 & H5 & H6 & H7 & H8).
  exact (proj1 (pcd_read_compose fresh_buffer (zeros 8) (zeros 8) (zeros 16) 8 8 500
                  H1 H2 H3 H4 H5 H6 H7 H8)).
Defined.

(** X8: two writes in a row, the first of which fits the region, leave
    the device buffer and the position as one write of the two sources
    joined leaves them. *)
Theorem pcd_write_compose dev (B1 B2 : list byte) p :
  length dev = 512%nat ->
  0 <= p -> p + Z.of_nat (length B1) <= DEV_MEM_SIZE ->
  p + Z.of_nat (length B1) + Z.of_nat (length B2) <= SIZE_MAX ->
  let w1 := pcd_write dev B1 (Z.of_nat (length B1)) p in
  let w2 := pcd_write (rw_dev w1) B2 (Z.of_nat (length B2)) (rw_pos w1) in
  let w := pcd_write dev (B1 ++ B2) (Z.of_nat (length B1) + Z.of_nat (length B2)) p in
  rw_dev w2 = rw_dev w /\ rw_pos w2 = rw_pos w.
Proof.
  intros Hlen Hp Hfit Hs w1 w2 w.
  set (l1 := Z.of_nat (length B1)) in *. set (l2 := Z.of_nat (length B2)) in *.
  destruct (pcd_write_data dev B1 l1 p) as (P1 & D1 & _); try zlia.
  fold w1 in P1, D1.
  destruct (pcd_write_data (rw_dev w1) B2 l2 (rw_pos w1)) as (P2 & D2 & _);
    try (rewrite ?P1; zlia).
  fold w2 in P2, D2.
  destruct (pcd_write_data dev (B1 ++ B2) (l1 + l2) p) as (P & D & _);
    try (rewrite ?length_app; zlia).
  fold w in P, D.
  assert (N1 : Z.min l1 (DEV_MEM_SIZE - p) = l1) by lia.
  rewrite N1 in P1, D1. rewrite P1 in P2, D2.
  set (n2 := Z.min l2 (DEV_MEM_SIZE - (p + l1))) in *.
  assert (N : Z.min (l1 + l2) (DEV_MEM_SIZE - p) = l1 + n2) by lia.
  rewrite N in P, D. split; [|lia].
  rewrite D2, D1, D. apply list_eq. intros i. rewrite !lookup_kwrite.
  destruct (dev !! i) as [b0|]; simpl; [|reflexivity]. f_equal.
  destruct (Z.leb_spec 0 (Z.of_nat i - (p + l1)));
    destruct (Z.ltb_spec (Z.of_nat i - (p + l1)) n2);
    destruct (Z.leb_spec 0 (Z.of_nat i - p));
    destruct (Z.ltb_spec (Z.of_nat i - p) l1);
    destruct (Z.ltb_spec (Z.of_nat i - p) (l1 + n2)); simpl; try lia;
    try reflexivity.
  - rewrite app_nth2 by lia. f_equal. lia.
  - rewrite app_nth1 by lia. reflexivity.
Qed.

Lemma pcd_write_compose_witness :
  (length fresh_buffer = 512%nat /\ 0 <= 505 /\
   505 + Z.of_nat (length (bytes_of "Hello")) <= DEV_MEM_SIZE /\
   505 + Z.of_nat (length (bytes_of "Hello")) + Z.of_nat (length (bytes_of "World"))
     <= SIZE_MAX) /\
  rw_dev (pcd_write (rw_dev (pcd_write fresh_buffer (bytes_of "Hello") 5 505))
            (bytes_of "World") 5 510)
  = rw_dev (pcd_write fresh_buffer (bytes_of "HelloWorld") 10 505).
Proof.
  assert (H : length fresh_buffer = 512%nat /\ 0 <= 505 /\
              505 + Z.of_nat (length (bytes_of "Hello")) <= DEV_MEM_SIZE /\
              505 + Z.of_nat (length (bytes_of "Hello"))
                + Z.of_nat (length (bytes_of "World")) <= SIZE_MAX).
  { split; [reflexivity|]. split; [lia|]. split; [simpl; zlia|]. simpl. zlia. }
  split; [exact H|]. destruct H as (H1 & H2 & H3 & H4).
  exact (proj1 (pcd_write_compose fresh_buffer (bytes_of "Hello") (bytes_of "World") 505
                  H1 H2 H3 H4)).
Defined.

(** ** Returned values *)

(** X9: [pcd_write] never returns 0, at any position and for any count; in
    the region it returns [-ENOSPC], [-EFAULT] or the positive number
    [min(count, 512 - position)]. *)
Theorem pcd_write_returns dev buff c p :
  is_size_t c ->
  rw_ret (pcd_write dev buff c p) <> 0 /\
  (0 <= p <= DEV_MEM_SIZE -> p + c <= SIZE_MAX ->
   rw_ret (pcd_write dev buff c p) = - ENOSPC \/
   rw_ret (pcd_write dev buff c p) = - EFAULT \/
   (rw_ret (pcd_write dev buff c p) = Z.min c (DEV_MEM_SIZE - p) /\
    0 < rw_ret (pcd_write dev buff c p))).
Proof.
  intros Hc. pose proof (clamp_count_size_t p c Hc) as Hn. split.
  - unfold pcd_write. destruct (Z.leb_spec (clamp_count p c) 0); [simpl; zlia|].
    unfold copy_from_user. destruct (negb _); simpl; [zlia|].
    unfold to_ssize_t.
    destruct (to_loff_t_cases (clamp_count p c) Hn) as [[_ ->]|[? ->]]; zlia.
  - intros Hp Hs. unfold pcd_write. rewrite clamp_count_min by zlia.
    destruct (Z.leb_spec (Z.min c (DEV_MEM_SIZE - p)) 0); [left; reflexivity|].
    unfold copy_from_user. destruct (negb _); simpl; [right; left; reflexivity|].
    right; right. unfold to_ssize_t. rewrite to_loff_t_small by zlia. lia.
Qed.

Lemma pcd_write_returns_witness :
  is_size_t 0 /\ rw_ret (pcd_write fresh_buffer [] 0 100) <> 0.
Proof.
  assert (H : is_size_t 0) by zlia.
  split; [exact H|]. exact (proj1 (pcd_write_returns fresh_buffer [] 0 100 H)).
Defined.



(** ** Counts that no window holds *)

(** Beyond the region the count exceeds [LLONG_MAX]. *)
Lemma clamp_count_beyond_huge p c :
  DEV_MEM_SIZE < p <= LLONG_MAX -> is_size_t c -> LLONG_MAX < clamp_count p c.
Proof.
  intros Hp Hc. unfold clamp_count.
  assert (Hneg : to_size_t (DEV_MEM_SIZE - p) = two64 + DEV_MEM_SIZE - p).
  { unfold to_size_t.
    replace (DEV_MEM_SIZE - p)
      with ((two64 + DEV_MEM_SIZE - p) + (-1) * two64) by lia.
    rewrite Z_mod_plus_full. apply Z.mod_small. zlia. }
  rewrite Hneg. destruct (Z.gtb_spec (to_size_t (p + c)) DEV_MEM_SIZE) as [|Hle];
    [zlia|].
  destruct (Z_lt_le_dec (p + c) two64) as [Hfit|Hwrap].
  - rewrite to_size_t_small in Hle by zlia. zlia.
  - zlia.
Qed.

(** With such a count and a window of at most [LLONG_MAX] bytes, both
    transfers reach their copy primitive and report its failure. *)
Lemma huge_count_faults dev buff c p :
  LLONG_MAX < clamp_count p c -> Z.of_nat (length buff) <= LLONG_MAX ->
  (rw_ret (pcd_read dev buff c p) = - EFAULT /\
   rw_pos (pcd_read dev buff c p) = p /\
   rw_span (pcd_read dev buff c p) = Some (Span p (clamp_count p c))) /\
  (rw_ret (pcd_write dev buff c p) = - EFAULT /\
   rw_pos (pcd_write dev buff c p) = p /\
   rw_span (pcd_write dev buff c p) = Some (Span p (clamp_count p c))).
Proof.
  intros Hn Hb. unfold pcd_read, pcd_write, copy_to_user, copy_from_user.
  destruct (Z.leb_spec (clamp_count p c) 0); [zlia|].
  rewrite Z.min_r by lia.
  destruct (Z.eqb_spec (clamp_count p c - Z.of_nat (length buff)) 0); [lia|].
  simpl. auto.
Qed.

(** X11: at a position above 512 neither transfer stops at its bounds
    test: for every count and every caller window of at most [LLONG_MAX]
    bytes, [pcd_read] and [pcd_write] hand their copy primitive a range
    that starts beyond the array, return [-EFAULT] and leave the position
    as it was. *)
Theorem beyond_region_faults dev buff c p :
  DEV_MEM_SIZE < p <= LLONG_MAX -> is_size_t c ->
  Z.of_nat (length buff) <= LLONG_MAX ->
  rw_ret (pcd_read dev buff c p) = - EFAULT /\
  rw_pos (pcd_read dev buff c p) = p /\
  rw_ret (pcd_write dev buff c p) = - EFAULT /\
  rw_pos (pcd_write dev buff c p) = p /\
  rw_span (pcd_read dev buff c p) = rw_span (pcd_write dev buff c p) /\
  ~ in_buffer_opt (rw_span (pcd_write dev buff c p)).
Proof.
  intros Hp Hc Hb. pose proof (clamp_count_beyond_huge p c Hp Hc) as Hn.
  destruct (huge_count_faults dev buff c p Hn Hb)
    as ((R1 & R2 & R3) & (W1 & W2 & W3)).
  rewrite R3, W3. repeat split; try assumption.
  unfold in_buffer_opt, in_buffer. simpl. zlia.
Qed.

Lemma beyond_region_faults_witness :
  (DEV_MEM_SIZE < 600 <= LLONG_MAX /\ is_size_t 5 /\
   Z.of_nat (length (bytes_of "abcde")) <= LLONG_MAX) /\
  rw_ret (pcd_write fresh_buffer (bytes_of "abcde") 5 600) = - EFAULT.
Proof.
  assert (H : DEV_MEM_SIZE < 600 <= LLONG_MAX /\ is_size_t 5 /\
              Z.of_nat (length (bytes_of "abcde")) <= LLONG_MAX).
  { split; [zlia|]. split; [zlia|]. simpl. zlia. }
  split; [exact H|]. destruct H as (H1 & H2 & H3).
  destruct (beyond_region_faults fresh_buffer (bytes_of "abcde") 5 600 H1 H2 H3)
    as (_ & _ & W & _).
  exact W.
Defined.

(** X12: a count so large that [*f_pos + count] wraps around 64 bits
    passes the bounds test unreduced: from a position [p] in 1 .. 512 and
    for a count of at least [2^64 - p], both transfers hand their copy
    primitive the range of [count] bytes from index [p], which leaves the
    array, and return [-EFAULT] for a caller window of at most [LLONG_MAX]
    bytes. *)
Theorem wrapping_count_faults dev buff c p :
  0 < p <= DEV_MEM_SIZE -> two64 - p <= c <= SIZE_MAX ->
  Z.of_nat (length buff) <= LLONG_MAX ->
  clamp_count p c = c /\
  rw_span (pcd_read dev buff c p) = Some (Span p c) /\
  rw_span (pcd_write dev buff c p) = Some (Span p c) /\
  ~ in_buffer (Span p c) /\
  rw_ret (pcd_read dev buff c p) = - EFAULT /\
  rw_ret (pcd_write dev buff c p) = - EFAULT.
Proof.
  intros Hp Hc Hb.
  assert (Hclamp : clamp_count p c = c).
  { unfold clamp_count, to_size_t.
    replace (p + c) with ((p + c - two64) + 1 * two64) by lia.
    rewrite Z_mod_plus_full. rewrite Z.mod_small by zlia.
    destruct (Z.gtb_spec (p + c - two64) DEV_MEM_SIZE); [zlia | reflexivity]. }
  assert (Hn : LLONG_MAX < clamp_count p c) by (rewrite Hclamp; zlia).
  destruct (huge_count_faults dev buff c p Hn Hb)
    as ((R1 & _ & R3) & (W1 & _ & W3)).
  rewrite Hclamp in R3, W3. repeat split; try assumption.
  unfold in_buffer. simpl. zlia.
Qed.

Lemma wrapping_count_faults_witness :
  (0 < 1 <= DEV_MEM_SIZE /\ two64 - 1 <= SIZE_MAX <= SIZE_MAX /\
   Z.of_nat (length (zeros 8)) <= LLONG_MAX) /\
  rw_span (pcd_read fresh_buffer (zeros 8) SIZE_MAX 1) = Some (Span 1 SIZE_MAX) /\
  rw_ret (pcd_read fresh_buffer (zeros 8) SIZE_MAX 1) = - EFAULT.
Proof.
  assert (H : 0 < 1 <= DEV_MEM_SIZE /\ two64 - 1 <= SIZE_MAX <= SIZE_MAX /\
              Z.of_nat (length (zeros 8)) <= LLONG_MAX).
  { split; [zlia|]. split; [zlia|]. simpl. zlia. }
  split; [exact H|]. destruct H as (H1 & H2 & H3).
  destruct (wrapping_count_faults fresh_buffer (zeros 8) SIZE_MAX 1 H1 H2 H3)
    as (_ & S & _ & _ & R & _).
  split; [exact S | exact R].
Defined.

(** ** Seeking, further *)

(** X13: whatever the file, the offset and the mode, [pcd_lseek] either
    returns [-EINVAL] and leaves the file as it was, or returns the new
    position, which it has stored and which lies in [0, 512]. *)
Theorem pcd_lseek_outcome filp off whence :
  (fst (pcd_lseek filp off whence) = - EINVAL /\
   snd (pcd_lseek filp off whence) = filp) \/
  (0 <= fst (pcd_lseek filp off whence) <= DEV_MEM_SIZE /\
   f_pos (snd (pcd_lseek filp off whence)) = fst (pcd_lseek filp off whence)).
Proof.
  assert (Hcheck : forall t,
    let r := if (t <? 0) || (t >? DEV_MEM_SIZE)
             then (- EINVAL, filp) else (t, File t) in
    (fst r = - EINVAL /\ snd r = filp) \/
    (0 <= fst r <= DEV_MEM_SIZE /\ f_pos (snd r) = fst r)).
  { intros t r. subst r.
    zbool; first [left; split; reflexivity | right; split; [lia | reflexivity]]. }
  unfold pcd_lseek.
  destruct (whence =? SEEK_SET); [apply Hcheck|].
  destruct (whence =? SEEK_CUR); [apply Hcheck|].
  destruct (whence =? SEEK_END); [apply Hcheck|]. left. auto.
Qed.

(** X14: two relative seeks in a row whose intermediate position is in the
    region act as one relative seek by the sum of the offsets; a seek by
    [a] followed by a seek by [-a] comes back to where it started. *)
Theorem pcd_lseek_compose p a b :
  0 <= p <= DEV_MEM_SIZE -> is_loff_t a -> is_loff_t b -> is_loff_t (a + b) ->
  0 <= p + a <= DEV_MEM_SIZE ->
  pcd_lseek (snd (pcd_lseek (File p) a SEEK_CUR)) b SEEK_CUR
    = (if (p + a + b <? 0) || (p + a + b >? DEV_MEM_SIZE)
       then (- EINVAL, File (p + a))
       else pcd_lseek (File p) (a + b) SEEK_CUR) /\
  (b = - a ->
   pcd_lseek (snd (pcd_lseek (File p) a SEEK_CUR)) b SEEK_CUR = (p, File p)).
Proof.
  intros Hp Ha Hb Hab Hmid.
  assert (H1 : pcd_lseek (File p) a SEEK_CUR = (p + a, File (p + a))).
  { unfold pcd_lseek. simpl. rewrite to_loff_t_small by zlia.
    zbool; solve [reflexivity | lia]. }
  rewrite H1. simpl snd. unfold pcd_lseek. simpl.
  replace (p + (a + b)) with (p + a + b) by lia.
  destruct (Z_le_dec 0 (p + a + b)) as [Hlo|Hlo];
    [destruct (Z_le_dec (p + a + b) DEV_MEM_SIZE) as [Hhi|Hhi]|].
  - rewrite !to_loff_t_small by zlia.
    split; [zbool; reflexivity|].
    intros ->. replace (p + a + - a) with p by lia.
    zbool; solve [reflexivity | lia].
  - destruct (to_loff_t_outside (p + a + b)) as [Hw|Hw]; [zlia | lia | |];
      (split; [|intros ->; lia]); zbool; solve [reflexivity | lia].
  - destruct (to_loff_t_outside (p + a + b)) as [Hw|Hw]; [zlia | lia | |];
      (split; [|intros ->; lia]); zbool; solve [reflexivity | lia].
Qed.

Lemma pcd_lseek_compose_witness :
  (0 <= 100 <= DEV_MEM_SIZE /\ is_loff_t 50 /\ is_loff_t (-50) /\
   is_loff_t (50 + -50) /\ 0 <= 100 + 50 <= DEV_MEM_SIZE) /\
  pcd_lseek (snd (pcd_lseek (File 100) 50 SEEK_CUR)) (-50) SEEK_CUR = (100, File 100).
Proof.
  assert (H : 0 <= 100 <= DEV_MEM_SIZE /\ is_loff_t 50 /\ is_loff_t (-50) /\
              is_loff_t (50 + -50) /\ 0 <= 100 + 50 <= DEV_MEM_SIZE) by zlia.
  split; [exact H|]. destruct H as (H1 & H2 & H3 & H4 & H5).
  exact (proj2 (pcd_lseek_compose 100 50 (-50) H1 H2 H3 H4 H5) eq_refl).
Defined.

(** ** Reading to the end *)


